(** * bloom-cache.py: Bloom filter + local cache in front of Redis

    A shallow embedding of [src/bloom-cache.py] (class [BloomCache]) and of
    the library calls it makes, followed by the properties of the response
    cache that the code satisfies or violates.

    Conventions.
    - A Python [str] is represented by its UTF-8 encoding, a [string] of
      bytes; [prompt.encode()] is therefore the identity, and the order of
      [str] values (by code point) is the byte-wise order of [String.compare].
    - A Python [int] is a [Z]; a Python [float] is a binary64 [spec_float].
    - A method is a function from the object's state to an outcome and the
      state it leaves behind; a raised exception keeps the mutations made
      before it. *)

From Stdlib Require Import ZArith List String Ascii Bool Lia SpecFloat Reals Lra.
From stdpp Require Import base option list strings gmap.

Local Open Scope Z_scope.

(** ** 32-bit words, as [hashlib] and [mmh3] compute with them *)

Module Word32.

Definition wrap (x : Z) : Z := Z.land x 0xffffffff.

Definition rotl (x c : Z) : Z :=
  wrap (Z.lor (Z.shiftl x c) (Z.shiftr x (32 - c))).

Definition lnot (x : Z) : Z := Z.lxor x 0xffffffff.

(** Reinterpretation of an unsigned 32-bit word as a signed one. *)
Definition signed (x : Z) : Z := if x <? 0x80000000 then x else x - 0x100000000.

Definition bytes_of_string (s : string) : list Z :=
  List.map (fun c => Z.of_N (N_of_ascii c)) (list_ascii_of_string s).

(** Little-endian value of a group of bytes. *)
Fixpoint le_word (bs : list Z) : Z :=
  match bs with
  | [] => 0
  | b :: bs' => b + 256 * le_word bs'
  end.

(** The [n] low bytes of [x], least significant first. *)
Fixpoint le_bytes (n : nat) (x : Z) : list Z :=
  match n with
  | O => []
  | S n' => Z.land x 0xff :: le_bytes n' (Z.shiftr x 8)
  end.

(** Cut a byte sequence into [n] groups of [w] bytes. *)
Fixpoint chunks (w n : nat) (bs : list Z) : list (list Z) :=
  match n with
  | O => []
  | S n' => firstn w bs :: chunks w n' (skipn w bs)
  end.

End Word32.

(** ** [hashlib.md5(data).hexdigest()] (RFC 1321) *)

Module Hashlib.
Import Word32.

Definition K : list Z :=
 [0xd76aa478; 0xe8c7b756; 0x242070db; 0xc1bdceee;
  0xf57c0faf; 0x4787c62a; 0xa8304613; 0xfd469501;
  0x698098d8; 0x8b44f7af; 0xffff5bb1; 0x895cd7be;
  0x6b901122; 0xfd987193; 0xa679438e; 0x49b40821;
  0xf61e2562; 0xc040b340; 0x265e5a51; 0xe9b6c7aa;
  0xd62f105d; 0x02441453; 0xd8a1e681; 0xe7d3fbc8;
  0x21e1cde6; 0xc33707d6; 0xf4d50d87; 0x455a14ed;
  0xa9e3e905; 0xfcefa3f8; 0x676f02d9; 0x8d2a4c8a;
  0xfffa3942; 0x8771f681; 0x6d9d6122; 0xfde5380c;
  0xa4beea44; 0x4bdecfa9; 0xf6bb4b60; 0xbebfbc70;
  0x289b7ec6; 0xeaa127fa; 0xd4ef3085; 0x04881d05;
  0xd9d4d039; 0xe6db99e5; 0x1fa27cf8; 0xc4ac5665;
  0xf4292244; 0x432aff97; 0xab9423a7; 0xfc93a039;
  0x655b59c3; 0x8f0ccc92; 0xffeff47d; 0x85845dd1;
  0x6fa87e4f; 0xfe2ce6e0; 0xa3014314; 0x4e0811a1;
  0xf7537e82; 0xbd3af235; 0x2ad7d2bb; 0xeb86d391].

Definition S : list Z :=
 [7; 12; 17; 22; 7; 12; 17; 22; 7; 12; 17; 22; 7; 12; 17; 22;
  5; 9; 14; 20; 5; 9; 14; 20; 5; 9; 14; 20; 5; 9; 14; 20;
  4; 11; 16; 23; 4; 11; 16; 23; 4; 11; 16; 23; 4; 11; 16; 23;
  6; 10; 15; 21; 6; 10; 15; 21; 6; 10; 15; 21; 6; 10; 15; 21].

Definition at_ (l : list Z) (i : Z) : Z := nth (Z.to_nat i) l 0.

Definition state : Type := Z * Z * Z * Z.

Definition init : state := (0x67452301, 0xefcdab89, 0x98badcfe, 0x10325476).

(** One of the 64 operations on block [M] (sixteen 32-bit words). *)
Definition step (M : list Z) (st : state) (i : Z) : state :=
  let '(A, B, C, D) := st in
  let '(F, g) :=
    if i <? 16 then (Z.lor (Z.land B C) (Z.land (lnot B) D), i)
    else if i <? 32 then (Z.lor (Z.land D B) (Z.land (lnot D) C), (5 * i + 1) mod 16)
    else if i <? 48 then (Z.lxor (Z.lxor B C) D, (3 * i + 5) mod 16)
    else (Z.lxor C (Z.lor B (lnot D)), (7 * i) mod 16) in
  let F' := wrap (F + A + at_ K i + at_ M g) in
  (D, wrap (B + rotl F' (at_ S i)), B, C).

Definition rounds : list Z := List.map Z.of_nat (seq 0 64).

Definition compress (st : state) (block : list Z) : state :=
  let M := List.map le_word (chunks 4 16 block) in
  let '(a0, b0, c0, d0) := st in
  let '(A, B, C, D) := fold_left (step M) rounds st in
  (wrap (a0 + A), wrap (b0 + B), wrap (c0 + C), wrap (d0 + D)).

(** Message padding: a 1 bit, zeros up to 56 mod 64 bytes, then the bit
    length as a 64-bit little-endian integer. *)
Definition pad (msg : list Z) : list Z :=
  let len := Z.of_nat (length msg) in
  let zeros := Z.to_nat ((55 - len) mod 64) in
  msg ++ 0x80 :: repeat 0 zeros ++ le_bytes 8 (8 * len).

Definition digest (msg : list Z) : list Z :=
  let padded := pad msg in
  let blocks := chunks 64 (length padded / 64) padded in
  let '(a, b, c, d) := fold_left compress blocks init in
  le_bytes 4 a ++ le_bytes 4 b ++ le_bytes 4 c ++ le_bytes 4 d.

Definition hex_digit (n : Z) : ascii :=
  ascii_of_N (Z.to_N (if n <? 10 then 48 + n else 87 + n)).

Fixpoint hex (bs : list Z) : string :=
  match bs with
  | [] => EmptyString
  | b :: bs' => String (hex_digit (b / 16)) (String (hex_digit (b mod 16)) (hex bs'))
  end.

Definition md5_hexdigest (data : string) : string :=
  hex (digest (bytes_of_string data)).

End Hashlib.

(** ** [mmh3.hash(key, seed)]: MurmurHash3, x86 32-bit variant, signed *)

Module Mmh3.
Import Word32.

Definition c1 : Z := 0xcc9e2d51.
Definition c2 : Z := 0x1b873593.

Definition scramble (k : Z) : Z := wrap (rotl (wrap (k * c1)) 15 * c2).

Definition mix_block (h : Z) (block : list Z) : Z :=
  let h1 := Z.lxor h (scramble (le_word block)) in
  wrap (rotl h1 13 * 5 + 0xe6546b64).

Definition fmix (h : Z) : Z :=
  let h1 := Z.lxor h (Z.shiftr h 16) in
  let h2 := wrap (h1 * 0x85ebca6b) in
  let h3 := Z.lxor h2 (Z.shiftr h2 13) in
  let h4 := wrap (h3 * 0xc2b2ae35) in
  Z.lxor h4 (Z.shiftr h4 16).

Definition murmur3_32 (data : list Z) (seed : Z) : Z :=
  let nblocks := (length data / 4)%nat in
  let body := fold_left mix_block (chunks 4 nblocks data) (wrap seed) in
  let tail := skipn (4 * nblocks) data in
  let h := match tail with
           | [] => body
           | _ => Z.lxor body (scramble (le_word tail))
           end in
  fmix (Z.lxor h (Z.of_nat (length data))).

Definition hash (key : string) (seed : Z) : Z :=
  signed (murmur3_32 (bytes_of_string key) seed).

End Mmh3.


(** ** The Python values and builtins the module uses *)

Module Py.

(** The exceptions of [redis.exceptions] a call on the client raises. *)
Inductive redis_error : Set :=
| ConnectionError
| TimeoutError
| ResponseError.

Inductive exn : Set :=
| ZeroDivisionError
| OverflowError
| ValueError
| IndexError
| KeyError
| RedisError (e : redis_error).

(** What evaluating an expression or a call yields. *)
Inductive outcome (A : Type) : Type :=
| Return (a : A)
| Raise (e : exn).
Arguments Return {A} a.
Arguments Raise {A} e.

Definition bind {A B : Type} (c : outcome A) (k : A -> outcome B) : outcome B :=
  match c with
  | Return a => k a
  | Raise e => Raise e
  end.

(** A computation on a mutable object of type [St]: the state it leaves
    is returned whether it finishes or raises. *)
Definition M (St A : Type) : Type := St -> outcome A * St.

Definition ret {St A : Type} (a : A) : M St A := fun s => (Return a, s).

Definition mbind {St A B : Type} (c : M St A) (k : A -> M St B) : M St B :=
  fun s => match c s with
           | (Return a, s') => k a s'
           | (Raise e, s') => (Raise e, s')
           end.

Definition lift {St A : Type} (c : outcome A) : M St A := fun s => (c, s).

Definition gets {St A : Type} (f : St -> A) : M St A := fun s => (Return (f s), s).

Definition modify {St : Type} (f : St -> St) : M St unit := fun s => (Return tt, f s).

(** [for x in xs: body(x)] *)
Fixpoint for_each {St A : Type} (xs : list A) (body : A -> M St unit) : M St unit :=
  match xs with
  | [] => ret tt
  | x :: xs' => mbind (body x) (fun _ => for_each xs' body)
  end.

(** [range(n)] *)
Definition range (n : Z) : list Z := List.map Z.of_nat (seq 0 (Z.to_nat n)).

(** [a % b] on ints: the result has the sign of [b]. *)
Definition mod_ (a b : Z) : outcome Z :=
  if b =? 0 then Raise ZeroDivisionError else Return (a mod b).

(** [min(xs)] on strings: the first of the smallest elements. *)
Definition min (xs : list string) : outcome string :=
  match xs with
  | [] => Raise ValueError
  | x :: xs' => Return (fold_left (fun m y => if String.ltb y m then y else m) xs' x)
  end.

(** *** Floats: IEEE 754 binary64 *)

Definition prec : Z := 53.
Definition emax : Z := 1024.

Definition float_of_int (a : Z) : outcome spec_float :=
  match binary_normalize prec emax a 0 false with
  | S754_infinity _ => Raise OverflowError
  | x => Return x
  end.

(** The float denoted by the decimal literal [num / 10^digits]: the
    binary64 number nearest to it. *)
Definition literal (num : positive) (digits : Z) : spec_float :=
  SFdiv prec emax (S754_finite false num 0)
                  (S754_finite false (Z.to_pos (10 ^ digits)) 0).

(** [a / b] on ints: the correctly rounded quotient. *)
Definition truediv (a b : Z) : outcome spec_float :=
  match a, b with
  | _, Z0 => Raise ZeroDivisionError
  | Z0, _ => Return (S754_zero (b <? 0))
  | _, _ =>
      match SFdiv prec emax (S754_finite (a <? 0) (Z.to_pos (Z.abs a)) 0)
                            (S754_finite (b <? 0) (Z.to_pos (Z.abs b)) 0) with
      | S754_infinity _ => Raise OverflowError
      | q => Return q
      end
  end.

(** [x * k] for a float [x] and an int [k]. *)
Definition mul_int (x : spec_float) (k : Z) : outcome spec_float :=
  bind (float_of_int k) (fun y => Return (SFmul prec emax x y)).

(** [int(x)]: truncation towards zero. *)
Definition int (x : spec_float) : outcome Z :=
  match x with
  | S754_zero _ => Return 0
  | S754_infinity _ => Raise OverflowError
  | S754_nan => Raise ValueError
  | S754_finite s m e =>
      let mag := if 0 <=? e then Z.pos m * 2 ^ e else Z.pos m / 2 ^ (- e) in
      Return (if s then - mag else mag)
  end.

(** *** [hash] of numbers (CPython, 64-bit build): reduction modulo the
    Mersenne prime 2^61 - 1, with -1 reserved. *)

Definition hash_modulus : Z := 2 ^ 61 - 1.

Definition hash_fix (h : Z) : Z := if h =? -1 then -2 else h.

Definition hash_int (n : Z) : Z :=
  hash_fix (Z.sgn n * (Z.abs n mod hash_modulus)).

Definition hash_float (x : spec_float) : Z :=
  match x with
  | S754_zero _ => 0
  | S754_infinity s => if s then -314159 else 314159
  | S754_nan => 0
  | S754_finite s m e =>
      let h := (Z.pos m * 2 ^ (e mod 61)) mod hash_modulus in
      hash_fix (if s then - h else h)
  end.

End Py.

Declare Scope py_scope.
Delimit Scope py_scope with py.
Notation "'let!' x ':=' c 'in' k" := (Py.mbind c (fun x => k))
  (at level 10, x name, c at level 100, k at level 200) : py_scope.
Notation "'let?' x ':=' c 'in' k" := (Py.bind c (fun x => k))
  (at level 10, x name, c at level 100, k at level 200) : py_scope.
Notation "c1 >> c2" := (Py.mbind c1 (fun _ => c2))
  (at level 90, right associativity) : py_scope.

Local Open Scope py_scope.

(** ** [bitarray.bitarray]: a fixed-length array of bits *)

Module Bitarray.
Import Py.

Abbreviation t := (list bool).

(** [bitarray(n)] followed by [setall(0)]: [n] cleared bits. *)
Definition new (n : Z) : outcome t :=
  if n <? 0 then Raise ValueError else Return (replicate (Z.to_nat n) false).

Definition setall (b : t) (v : bool) : t := replicate (length b) v.

(** The offset an int index denotes: negative indices count from the end. *)
Definition index (b : t) (i : Z) : outcome nat :=
  let n := Z.of_nat (length b) in
  if (0 <=? i) && (i <? n) then Return (Z.to_nat i)
  else if (- n <=? i) && (i <? 0) then Return (Z.to_nat (i + n))
  else Raise IndexError.

(** [b[i]] *)
Definition getitem (b : t) (i : Z) : outcome bool :=
  let? k := index b i in
  match b !! k with
  | Some v => Return v
  | None => Raise IndexError
  end.

(** [b[i] = v] *)
Definition setitem (b : t) (i : Z) (v : bool) : outcome t :=
  let? k := index b i in Return (<[k := v]> b).

(** [all(b[pos] for pos in positions)]: stops at the first cleared bit. *)
Fixpoint all_set (b : t) (positions : list Z) : outcome bool :=
  match positions with
  | [] => Return true
  | pos :: rest =>
      let? bit := getitem b pos in
      if bit then all_set b rest else Return false
  end.

End Bitarray.

(** ** [dict] with [str] keys and values: entries in insertion order *)

Module Dict.
Import Py.

Abbreviation t := (list (string * string)).

Fixpoint lookup (d : t) (k : string) : option string :=
  match d with
  | [] => None
  | (k', v) :: d' => if String.eqb k' k then Some v else lookup d' k
  end.

(** [k in d] *)
Definition contains (d : t) (k : string) : bool :=
  match lookup d k with Some _ => true | None => false end.

(** [d[k]] *)
Definition getitem (d : t) (k : string) : outcome string :=
  match lookup d k with
  | Some v => Return v
  | None => Raise KeyError
  end.

(** [d[k] = v]: an existing key keeps its place, a new one goes last. *)
Fixpoint setitem (d : t) (k v : string) : t :=
  match d with
  | [] => [(k, v)]
  | (k', v') :: d' =>
      if String.eqb k' k then (k', v) :: d' else (k', v') :: setitem d' k v
  end.

Fixpoint remove (d : t) (k : string) : t :=
  match d with
  | [] => []
  | (k', v') :: d' => if String.eqb k' k then d' else (k', v') :: remove d' k
  end.

(** [del d[k]] *)
Definition delitem (d : t) (k : string) : outcome t :=
  if contains d k then Return (remove d k) else Raise KeyError.

(** [d.keys()] *)
Definition keys (d : t) : list string := List.map fst d.

(** [len(d)] *)
Definition len (d : t) : Z := Z.of_nat (length d).

End Dict.

(** ** The Redis server behind [redis.Redis(...)]

    The server is outside the program: what it stores and whether it can be
    reached are part of the state the calls run against, and may change
    between two calls (expiry of a key, other clients, an outage). *)

Module Redis.
Import Py.

Inductive command : Type :=
| GET (name : string)
| SETEX (name : string) (time : Z) (value : string).

Record server : Type := mk {
  db : gmap string (string * Z);  (* live keys: value and time to live *)
  fault : option redis_error;     (* [Some e]: a call raises [e] *)
  log : list command              (* the calls made so far, latest first *)
}.

Definition logged (c : command) (srv : server) : server :=
  {| db := db srv; fault := fault srv; log := c :: log srv |}.

(** [r.get(name)], with [decode_responses=True]: a [str] or [None]. *)
Definition get (name : string) : M server (option string) :=
  fun srv =>
    let srv' := logged (GET name) srv in
    match fault srv with
    | Some e => (Raise (RedisError e), srv')
    | None => (Return (fst <$> db srv !! name), srv')
    end.

(** [r.setex(name, time, value)]; the server rejects a time to live
    that is not positive. *)
Definition setex (name : string) (time : Z) (value : string) : M server unit :=
  fun srv =>
    let srv' := logged (SETEX name time value) srv in
    match fault srv with
    | Some e => (Raise (RedisError e), srv')
    | None =>
        if time <=? 0 then (Raise (RedisError ResponseError), srv')
        else (Return tt,
              {| db := <[name := (value, time)]> (db srv');
                 fault := fault srv'; log := log srv' |})
    end.

End Redis.

(** ** [class BloomCache] *)

Module BloomCache.
Import Py.

Record t : Type := mk {
  redis : Redis.server;
  capacity : Z;
  size : Z;
  hash_count : Z;
  bloom : Bitarray.t;
  local_cache : Dict.t;
  max_local : Z
}.

Definition with_redis (r : Redis.server) (self : t) : t :=
  mk r (capacity self) (size self) (hash_count self) (bloom self)
     (local_cache self) (max_local self).

Definition with_bloom (b : Bitarray.t) (self : t) : t :=
  mk (redis self) (capacity self) (size self) (hash_count self) b
     (local_cache self) (max_local self).

Definition with_local_cache (d : Dict.t) (self : t) : t :=
  mk (redis self) (capacity self) (size self) (hash_count self) (bloom self)
     d (max_local self).

(** A call on [self.redis]. *)
Definition on_redis {A : Type} (c : M Redis.server A) : M t A :=
  fun self => let '(r, srv) := c (redis self) in (r, with_redis srv self).

Definition _optimal_size (n : Z) (p : spec_float) : outcome Z :=
  let? q := truediv (- (n * hash_float p)) (hash_float (literal 6185 4)) in
  int q.

Definition _optimal_hash_count (m n : Z) : outcome Z :=
  let? q := truediv m n in
  let? r := mul_int q (hash_int 2) in
  int r.

(** [BloomCache(redis_host, capacity, error_rate)]; [srv] is the server
    found at [redis_host]. *)
Definition __init__ (srv : Redis.server) (capacity : Z) (error_rate : spec_float)
  : outcome t :=
  let? size := _optimal_size capacity error_rate in
  let? hash_count := _optimal_hash_count size capacity in
  let? bloom := Bitarray.new size in
  Return {| redis := srv;
            capacity := capacity;
            size := size;
            hash_count := hash_count;
            bloom := Bitarray.setall bloom false;
            local_cache := [];
            max_local := 100 |}.

Fixpoint positions_from (item : string) (size : Z) (seeds : list Z)
  : outcome (list Z) :=
  match seeds with
  | [] => Return []
  | i :: seeds' =>
      let? h := mod_ (Mmh3.hash item i) size in
      let? positions := positions_from item size seeds' in
      Return (h :: positions)
  end.

Definition _get_hash_positions (item : string) : M t (list Z) :=
  fun self => (positions_from item (size self) (range (hash_count self)), self).

Definition might_exist (key : string) : M t bool :=
  let! positions := _get_hash_positions key in
  let! bits := gets bloom in
  lift (Bitarray.all_set bits positions).

(** [self.bloom[pos] = 1] *)
Definition set_bit (pos : Z) : M t unit :=
  fun self =>
    match Bitarray.setitem (bloom self) pos true with
    | Return b => (Return tt, with_bloom b self)
    | Raise e => (Raise e, self)
    end.

Definition add (key : string) : M t unit :=
  let! positions := _get_hash_positions key in
  for_each positions set_bit.

(** The body of [if len(self.local_cache) >= self.max_local:]. *)
Definition evict : M t unit :=
  let! cache := gets local_cache in
  let! oldest := lift (min (Dict.keys cache)) in
  let! cache' := lift (Dict.delitem cache oldest) in
  modify (with_local_cache cache').

Definition get (prompt : string) : M t (option string) :=
  let key := Hashlib.md5_hexdigest prompt in
  let! cache := gets local_cache in
  if Dict.contains cache key then
    let! value := lift (Dict.getitem cache key) in
    ret (Some value)
  else
    let! maybe := might_exist key in
    if negb maybe then ret None
    else
      let! result := on_redis (Redis.get ("cache:" +:+ key)) in
      (match result with
       | Some (String _ _ as value) =>    (* [if result:], a non-empty [str] *)
           let! cache := gets local_cache in
           let! limit := gets max_local in
           (if Dict.len cache >=? limit then evict else ret tt) >>
           modify (fun self => with_local_cache (Dict.setitem (local_cache self) key value) self)
       | _ => ret tt
       end) >>
      ret result.

Definition set (prompt response : string) (ttl : Z) : M t unit :=
  let key := Hashlib.md5_hexdigest prompt in
  add key >>
  on_redis (Redis.setex ("cache:" +:+ key) ttl response) >>
  modify (fun self => with_local_cache (Dict.setitem (local_cache self) key response) self).

(** The module-level singleton and the two functions around it. *)
Definition bloom_cache (srv : Redis.server) : outcome t :=
  __init__ srv 1000000 (literal 1 3).



End BloomCache.

(** ** Runs of the cache used as test cases *)

Module Scenario.
Import Py.

Inductive op : Type :=
| Get (prompt : string)
| Set_ (prompt response : string) (ttl : Z).

(** One call; whatever it returns or raises, the object lives on. *)
Definition step (self : BloomCache.t) (o : op) : BloomCache.t :=
  match o with
  | Get prompt => snd (BloomCache.get prompt self)
  | Set_ prompt response ttl => snd (BloomCache.set prompt response ttl self)
  end.

Definition run (ops : list op) (self : BloomCache.t) : BloomCache.t :=
  fold_left step ops self.

(** A sequence of [add] calls on the filter. *)
Definition add_all (keys : list string) (self : BloomCache.t) : BloomCache.t :=
  fold_left (fun s k => snd (BloomCache.add k s)) keys self.

(** A reachable server holding nothing. *)
Definition empty_server : Redis.server := Redis.mk ∅ None [].

(** A server that cannot be reached. *)
Definition dead_server : Redis.server := Redis.mk ∅ (Some ConnectionError) [].

(** [BloomCache(capacity=1, error_rate=0.5)], a call on which the
    constructor returns: the filter it builds has no bits and no hash
    functions. *)
Definition built (srv : Redis.server) : BloomCache.t :=
  BloomCache.mk srv 1 0 0 [] [] 100.

(** An object with a 64-bit filter and three hash functions. *)
Definition sized (srv : Redis.server) : BloomCache.t :=
  BloomCache.mk srv 100 64 3 (replicate 64 false) [] 100.

(** The prompt ['x' * i]. *)
Definition prompt (i : nat) : string := string_of_list_ascii (repeat "x"%char i).

(** [for i in range(n): cache.set('x' * i, 'v')] *)
Definition fill (n : nat) : list op :=
  List.map (fun i => Set_ (prompt i) "v" 3600) (seq 0 n).

(** A server on which another process has stored an answer for ["fresh"]. *)
Definition shared_server : Redis.server :=
  Redis.mk {[ ("cache:" +:+ Hashlib.md5_hexdigest "fresh") := ("answer"%string, 3600) ]}
           None [].

(** A full local cache: a hundred entries stored one after the other,
    the entry of [''] first. *)
Definition full_cache : BloomCache.t := run (fill 100) (built shared_server).

(** The same after a [get] of ['x' * 55], served from the local cache. *)
Definition touched_cache : BloomCache.t := step full_cache (Get (prompt 55)).

End Scenario.

(** ** Predicates the properties are stated with *)

Module Filter.

(** [b'] has every bit that [b] has: same length, and no set bit cleared. *)
Definition covers (b b' : Bitarray.t) : Prop :=
  length b = length b' /\ forall k : nat, b !! k = Some true -> b' !! k = Some true.

(** The bit array is the one the constructor allocates for [size]. *)
Definition well_sized (self : BloomCache.t) : Prop :=
  Z.of_nat (length (BloomCache.bloom self)) = BloomCache.size self.

(** The hash positions of an item, as [_get_hash_positions] computes them. *)
Definition positions_of (item : string) (self : BloomCache.t) : Py.outcome (list Z) :=
  BloomCache.positions_from item (BloomCache.size self)
                            (Py.range (BloomCache.hash_count self)).

End Filter.

(** ** The sizing formulas the constructor is compared with *)

Module Sizing.

(** The real number a float stands for. *)
Definition value (x : spec_float) : R :=
  match x with
  | S754_finite s m e => ((if s then -1 else 1) * IZR (Z.pos m) * powerRZ 2 e)%R
  | _ => 0%R
  end.

Definition ceil (x : R) : Z := 1 - up (- x).

(** The bit-array size for [n] insertions at false-positive rate [p]:
    [ceil(-n * ln(p) / (ln 2)^2)]. *)
Definition standard_size (n : Z) (p : R) : Z :=
  ceil (- IZR n * ln p / (ln 2) ^ 2)%R.

End Sizing.

(** * Properties *)

(** ** The library models agree with the libraries' test vectors *)

Example md5_empty : Hashlib.md5_hexdigest "" = "d41d8cd98f00b204e9800998ecf8427e"%string.
Proof. vm_compute. reflexivity. Qed.

Example md5_A : Hashlib.md5_hexdigest "A" = "7fc56270e7a70fa81a5935b72eacbe29"%string.
Proof. vm_compute. reflexivity. Qed.

Example md5_long :
  Hashlib.md5_hexdigest
    "12345678901234567890123456789012345678901234567890123456789012345678901234567890"
  = "57edf4a22be3c955ac49da2e2107b67a"%string.
Proof. vm_compute. reflexivity. Qed.

Example mmh3_foo : Mmh3.hash "foo" 0 = -156908512.
Proof. vm_compute. reflexivity. Qed.

Example mmh3_empty1 : Mmh3.hash "" 1 = 0x514E28B7.
Proof. vm_compute. reflexivity. Qed.

Example mmh3_hello : Mmh3.hash "hello" 0 = 0x248bfa47.
Proof. vm_compute. reflexivity. Qed.

Example mmh3_fox : Mmh3.hash "The quick brown fox jumps over the lazy dog" 0x9747b28c = Word32.signed 0x2FA826CD.
Proof. vm_compute. reflexivity. Qed.

Example mmh3_hw : Mmh3.hash "Hello, world!" 1234 = Word32.signed 0xfaf6cdb3.
Proof. vm_compute. reflexivity. Qed.

(** [hash(0.001)], [hash(0.6185)] and [hash(0.5)] *)

Example hash_0001 : Py.hash_float (Py.literal 1 3) = 2305843009213694.
Proof. vm_compute. reflexivity. Qed.

Example hash_06185 : Py.hash_float (Py.literal 6185 4) = 1426163901198669824.
Proof. vm_compute. reflexivity. Qed.

Example hash_05 : Py.hash_float (Py.literal 5 1) = 1152921504606846976.
Proof. vm_compute. reflexivity. Qed.

(** [1 / 3] and [7 / -2] *)

Example truediv_third : Py.truediv 1 3 = Py.Return (S754_finite false 6004799503160661 (-54)).
Proof. vm_compute. reflexivity. Qed.

Example truediv_negative : Py.bind (Py.truediv 7 (-2)) Py.int = Py.Return (-3).
Proof. vm_compute. reflexivity. Qed.

(** ** Bit arrays *)

Section BitarrayFacts.
Import Py.

Lemma index_length (b b' : Bitarray.t) (i : Z) :
  length b = length b' -> Bitarray.index b i = Bitarray.index b' i.
Proof. intros H. unfold Bitarray.index. now rewrite H. Qed.

Lemma index_lt (b : Bitarray.t) (i : Z) (k : nat) :
  Bitarray.index b i = Return k -> (k < length b)%nat.
Proof.
  unfold Bitarray.index. intros H.
  destruct ((0 <=? i) && (i <? Z.of_nat (length b))) eqn:E1.
  - inversion H; subst. apply andb_true_iff in E1 as [H1 H2]. lia.
  - destruct ((- Z.of_nat (length b) <=? i) && (i <? 0)) eqn:E2; [|discriminate].
    inversion H; subst. apply andb_true_iff in E2 as [H1 H2]. lia.
Qed.

Lemma index_in_range (b : Bitarray.t) (i : Z) :
  0 <= i < Z.of_nat (length b) -> Bitarray.index b i = Return (Z.to_nat i).
Proof.
  intros H. unfold Bitarray.index.
  replace ((0 <=? i) && (i <? Z.of_nat (length b))) with true; [reflexivity|].
  symmetry. apply andb_true_iff. lia.
Qed.

Lemma covers_refl (b : Bitarray.t) : Filter.covers b b.
Proof. split; auto. Qed.

Lemma covers_trans (b1 b2 b3 : Bitarray.t) :
  Filter.covers b1 b2 -> Filter.covers b2 b3 -> Filter.covers b1 b3.
Proof. intros [L1 H1] [L2 H2]. split; [congruence | auto]. Qed.

Lemma setitem_covers (b b' : Bitarray.t) (i : Z) :
  Bitarray.setitem b i true = Return b' -> Filter.covers b b'.
Proof.
  unfold Bitarray.setitem. destruct (Bitarray.index b i) as [k|e] eqn:E; simpl; [|discriminate].
  intros H; inversion H; subst; clear H. split.
  - now rewrite length_insert.
  - intros j Hj. destruct (decide (k = j)) as [->|Hne].
    + rewrite list_lookup_insert_eq; [reflexivity|]. eapply lookup_lt_Some; eauto.
    + now rewrite list_lookup_insert_ne.
Qed.

Lemma setitem_sets (b b' : Bitarray.t) (i : Z) :
  Bitarray.setitem b i true = Return b' -> Bitarray.getitem b' i = Return true.
Proof.
  unfold Bitarray.setitem, Bitarray.getitem.
  destruct (Bitarray.index b i) as [k|e] eqn:E; simpl; [|discriminate].
  intros H; inversion H; subst; clear H.
  rewrite (index_length _ b) by apply length_insert. rewrite E. simpl.
  rewrite list_lookup_insert_eq; [reflexivity|]. eapply index_lt; eauto.
Qed.

Lemma getitem_covers (b b' : Bitarray.t) (i : Z) :
  Filter.covers b b' ->
  Bitarray.getitem b i = Return true -> Bitarray.getitem b' i = Return true.
Proof.
  intros [L H]. unfold Bitarray.getitem. rewrite <- (index_length b b' i L).
  destruct (Bitarray.index b i) as [k|e]; simpl; [|discriminate].
  destruct (b !! k) as [[|]|] eqn:E; try discriminate.
  intros _. now rewrite (H k E).
Qed.

Lemma setitem_set_bit (b : Bitarray.t) (i : Z) :
  Bitarray.getitem b i = Return true -> Bitarray.setitem b i true = Return b.
Proof.
  unfold Bitarray.getitem, Bitarray.setitem.
  destruct (Bitarray.index b i) as [k|e]; simpl; [|discriminate].
  destruct (b !! k) as [[|]|] eqn:E; try discriminate.
  intros _. now rewrite list_insert_id.
Qed.

Lemma all_set_true (b : Bitarray.t) (ps : list Z) :
  Bitarray.all_set b ps = Return true <->
  Forall (fun pos => Bitarray.getitem b pos = Return true) ps.
Proof.
  induction ps as [|p ps IH]; simpl.
  - split; auto.
  - destruct (Bitarray.getitem b p) as [[|]|e] eqn:E; simpl.
    + rewrite IH. split; [intros H; constructor; auto | intros H; now inversion H].
    + split; [discriminate | intros H; inversion H; congruence].
    + split; [discriminate | intros H; inversion H; congruence].
Qed.

(** A cleared bit that is reached, with every bit before it readable,
    makes the conjunction false. *)
Lemma all_set_false (b : Bitarray.t) (ps : list Z) (pos : Z) :
  Forall (fun p => exists v, Bitarray.getitem b p = Return v) ps ->
  In pos ps -> Bitarray.getitem b pos = Return false ->
  Bitarray.all_set b ps = Return false.
Proof.
  induction ps as [|p ps IH]; simpl; [tauto|].
  intros Hall Hin Hpos. inversion Hall as [|? ? [v Hv] Hrest]; subst.
  rewrite Hv. simpl. destruct v; [|reflexivity].
  destruct Hin as [->|Hin]; [congruence | auto].
Qed.

End BitarrayFacts.

(** ** The membership filter: [_get_hash_positions], [might_exist], [add] *)

Section FilterFacts.
Import Py BloomCache Filter.
Implicit Types (self : BloomCache.t) (b : list bool) (ps : list Z).

Lemma might_exist_unfold key self :
  might_exist key self =
  match positions_of key self with
  | Return ps => (Bitarray.all_set (bloom self) ps, self)
  | Raise e => (Raise e, self)
  end.
Proof.
  unfold might_exist, _get_hash_positions, positions_of, mbind, gets, lift.
  now destruct (positions_from _ _ _).
Qed.

Lemma add_unfold key self :
  add key self =
  match positions_of key self with
  | Return ps => for_each ps set_bit self
  | Raise e => (Raise e, self)
  end.
Proof.
  unfold add, _get_hash_positions, positions_of, mbind.
  now destruct (positions_from _ _ _).
Qed.

Lemma with_bloom_same self : with_bloom (bloom self) self = self.
Proof. now destruct self. Qed.

Lemma with_bloom_twice b b' self : with_bloom b' (with_bloom b self) = with_bloom b' self.
Proof. reflexivity. Qed.

Lemma positions_of_with_bloom item b self :
  positions_of item (with_bloom b self) = positions_of item self.
Proof. reflexivity. Qed.

Lemma mark_cons p ps self :
  for_each (p :: ps) set_bit self =
  match Bitarray.setitem (bloom self) p true with
  | Return b => for_each ps set_bit (with_bloom b self)
  | Raise e => (Raise e, self)
  end.
Proof.
  simpl. unfold mbind. unfold set_bit at 1.
  now destruct (Bitarray.setitem (bloom self) p true).
Qed.

(** The loop of [add] only touches the bit array, never clears a bit,
    and when it runs to its end every position it visited is set. *)
Lemma mark_spec ps : forall self r self',
  for_each ps set_bit self = (r, self') ->
  self' = with_bloom (bloom self') self
  /\ covers (bloom self) (bloom self')
  /\ (r = Return tt ->
      Forall (fun pos => Bitarray.getitem (bloom self') pos = Return true) ps).
Proof.
  induction ps as [|p ps IH]; intros self r self' H.
  - inversion H; subst. split; [symmetry; apply with_bloom_same|].
    split; [apply covers_refl | constructor].
  - rewrite mark_cons in H.
    destruct (Bitarray.setitem (bloom self) p true) as [b1|e] eqn:E.
    + destruct (IH _ _ _ H) as (Hframe & Hcov & Hset). simpl in Hcov.
      split; [rewrite Hframe at 1; apply with_bloom_twice|].
      split; [eapply covers_trans; [eapply setitem_covers; eauto | exact Hcov]|].
      intros Hr. constructor; [|auto].
      eapply getitem_covers; [exact Hcov | eapply setitem_sets; eauto].
    + inversion H; subst. split; [symmetry; apply with_bloom_same|].
      split; [apply covers_refl | discriminate].
Qed.

(** Running the loop a second time changes nothing and ends the same way. *)
Lemma mark_again ps : forall self,
  for_each ps set_bit (snd (for_each ps set_bit self)) = for_each ps set_bit self.
Proof.
  induction ps as [|p ps IH]; intros self; [reflexivity|].
  rewrite (mark_cons p ps self).
  destruct (Bitarray.setitem (bloom self) p true) as [b1|e] eqn:E.
  - destruct (for_each ps set_bit (with_bloom b1 self)) as [r s2] eqn:R.
    destruct (mark_spec _ _ _ _ R) as (Hframe & Hcov & _). simpl in Hcov.
    cbn [snd].
    assert (Hp : Bitarray.setitem (bloom s2) p true = Return (bloom s2)).
    { apply setitem_set_bit. eapply getitem_covers; [exact Hcov|].
      eapply setitem_sets; eauto. }
    rewrite mark_cons, Hp, with_bloom_same.
    specialize (IH (with_bloom b1 self)). now rewrite R in IH.
  - cbn [snd]. now rewrite mark_cons, E.
Qed.

Lemma add_spec key self r self' :
  add key self = (r, self') ->
  self' = with_bloom (bloom self') self
  /\ Filter.covers (bloom self) (bloom self')
  /\ (r = Return tt -> might_exist key self' = (Return true, self')).
Proof.
  rewrite add_unfold. destruct (positions_of key self) as [ps|e] eqn:P.
  - intros H. destruct (mark_spec _ _ _ _ H) as (Hframe & Hcov & Hset).
    repeat split; try tauto; try apply Hcov.
    intros Hr. rewrite might_exist_unfold, Hframe, positions_of_with_bloom, P.
    simpl. rewrite <- Hframe. f_equal. apply all_set_true; auto.
  - intros H; inversion H; subst.
    split; [symmetry; apply with_bloom_same|]. split; [apply covers_refl | discriminate].
Qed.

Lemma might_exist_covers key self b' :
  Filter.covers (bloom self) b' ->
  might_exist key self = (Return true, self) ->
  might_exist key (with_bloom b' self) = (Return true, with_bloom b' self).
Proof.
  intros Hcov. rewrite !might_exist_unfold, positions_of_with_bloom.
  destruct (positions_of key self) as [ps|e]; [|discriminate]. simpl.
  intros H. f_equal. inversion H as [H1]. rewrite H1.
  apply all_set_true. apply all_set_true in H1.
  eapply Forall_impl; [exact H1|]. intros pos. simpl. apply getitem_covers, Hcov.
Qed.

Lemma add_all_spec keys : forall self,
  exists b', Scenario.add_all keys self = with_bloom b' self
             /\ covers (bloom self) b'.
Proof.
  induction keys as [|k keys IH]; intros self; simpl.
  - exists (bloom self). split; [symmetry; apply with_bloom_same | apply covers_refl].
  - destruct (add k self) as [r s1] eqn:A. simpl.
    destruct (add_spec _ _ _ _ A) as (Hframe & Hcov & _).
    destruct (IH s1) as (b' & Hb' & Hcov').
    exists b'. split; [|eapply covers_trans; eauto].
    rewrite Hb', Hframe. apply with_bloom_twice.
Qed.

End FilterFacts.

(** ** Hash positions *)

Section PositionFacts.
Import Py BloomCache Filter.

Lemma positions_from_range item size seeds : forall ps,
  0 < size ->
  positions_from item size seeds = Return ps ->
  Forall (fun p => 0 <= p < size) ps.
Proof.
  induction seeds as [|i seeds IH]; intros ps Hsize H; simpl in H.
  - inversion H. constructor.
  - unfold mod_ in H. destruct (size =? 0) eqn:E; [discriminate|]. simpl in H.
    destruct (positions_from item size seeds) as [ps'|e]; [|discriminate].
    inversion H; subst. constructor; [|auto].
    apply Z.mod_pos_bound; assumption.
Qed.

Lemma positions_from_nonempty item size seeds p ps :
  positions_from item size seeds = Return (p :: ps) -> size <> 0.
Proof.
  destruct seeds as [|i seeds]; simpl; [discriminate|].
  unfold mod_. destruct (size =? 0) eqn:E; [discriminate|].
  intros _. now apply Z.eqb_neq.
Qed.

Lemma positions_from_total item size seeds :
  size <> 0 -> exists ps, positions_from item size seeds = Return ps.
Proof.
  intros Hsize. induction seeds as [|i seeds [ps IH]]; simpl; [eauto|].
  unfold mod_. apply Z.eqb_neq in Hsize. rewrite Hsize. simpl. rewrite IH.
  simpl. eauto.
Qed.

(** In a well-sized object every computed position indexes the bit array. *)
Lemma positions_readable key self ps :
  well_sized self ->
  positions_of key self = Return ps ->
  Forall (fun p => exists v, Bitarray.getitem (bloom self) p = Return v) ps.
Proof.
  unfold well_sized, positions_of. intros Hwf Hps.
  destruct ps as [|p0 ps0]; [constructor|].
  assert (Hne := positions_from_nonempty _ _ _ _ _ Hps).
  assert (Hpos : 0 < size self) by lia.
  eapply Forall_impl; [eapply positions_from_range; eauto|].
  intros p Hp. simpl in Hp. unfold Bitarray.getitem.
  rewrite index_in_range by lia. simpl.
  destruct (bloom self !! Z.to_nat p) as [v|] eqn:E; [eauto|].
  apply lookup_ge_None in E. lia.
Qed.

End PositionFacts.

(** ** The local cache *)

Section DictFacts.

Lemma lookup_setitem_eq (d : list (string * string)) (k v : string) :
  Dict.lookup (Dict.setitem d k v) k = Some v.
Proof.
  induction d as [|[k' v'] d IH]; simpl.
  - now rewrite String.eqb_refl.
  - destruct (String.eqb k' k) eqn:E; simpl; now rewrite E.
Qed.

Lemma length_setitem_new (d : list (string * string)) (k v : string) :
  Dict.lookup d k = None -> length (Dict.setitem d k v) = S (length d).
Proof.
  induction d as [|[k' v'] d IH]; simpl; [reflexivity|].
  destruct (String.eqb k' k); [discriminate|]. intros H. simpl. now rewrite IH.
Qed.

Lemma contains_false (d : list (string * string)) (k : string) :
  Dict.contains d k = false <-> Dict.lookup d k = None.
Proof. unfold Dict.contains. destruct (Dict.lookup d k); split; congruence. Qed.

End DictFacts.

(** ** The paths through [get] and [set] *)

Section ServiceFacts.
Import Py BloomCache Filter.
Implicit Types (self : BloomCache.t) (prompt : string).

Lemma might_exist_state key self : snd (might_exist key self) = self.
Proof.
  rewrite might_exist_unfold. now destruct (positions_of key self).
Qed.

Lemma might_exist_with_redis key srv self :
  might_exist key (with_redis srv self) =
  (fst (might_exist key self), with_redis srv self).
Proof.
  rewrite !might_exist_unfold. change (positions_of key (with_redis srv self))
    with (positions_of key self).
  now destruct (positions_of key self).
Qed.

(** Line 53: the key is in the local cache. *)
Lemma get_local_hit prompt self v :
  Dict.lookup (local_cache self) (Hashlib.md5_hexdigest prompt) = Some v ->
  get prompt self = (Return (Some v), self).
Proof.
  intros H. unfold get, mbind, gets, lift, ret, Dict.contains, Dict.getitem.
  now rewrite H.
Qed.

(** Line 57: the filter rules the key out. *)
Lemma get_filtered prompt self :
  Dict.contains (local_cache self) (Hashlib.md5_hexdigest prompt) = false ->
  might_exist (Hashlib.md5_hexdigest prompt) self = (Return false, self) ->
  get prompt self = (Return None, self).
Proof.
  intros Hc Hm. unfold get, mbind, gets, ret. now rewrite Hc, Hm.
Qed.

(** Lines 61-69 are reached once the local cache misses and the filter
    says the key may exist. *)
Ltac reach_redis Hc Hm :=
  unfold get; unfold mbind at 1; unfold gets at 1; rewrite Hc;
  unfold mbind at 1; rewrite Hm; cbn [negb];
  unfold mbind at 1; unfold on_redis, Redis.get.

(** Line 61 raises. *)
Lemma get_redis_fault prompt self e :
  let key := Hashlib.md5_hexdigest prompt in
  Dict.contains (local_cache self) key = false ->
  might_exist key self = (Return true, self) ->
  Redis.fault (redis self) = Some e ->
  get prompt self =
  (Raise (RedisError e),
   with_redis (Redis.logged (Redis.GET ("cache:" +:+ key)) (redis self)) self).
Proof.
  intros key Hc Hm Hf. subst key. reach_redis Hc Hm. now rewrite Hf.
Qed.

(** Line 61 returns [None]. *)
Lemma get_redis_miss prompt self :
  let key := Hashlib.md5_hexdigest prompt in
  Dict.contains (local_cache self) key = false ->
  might_exist key self = (Return true, self) ->
  Redis.fault (redis self) = None ->
  Redis.db (redis self) !! ("cache:" +:+ key) = None ->
  get prompt self =
  (Return None,
   with_redis (Redis.logged (Redis.GET ("cache:" +:+ key)) (redis self)) self).
Proof.
  intros key Hc Hm Hf Hdb. subst key. reach_redis Hc Hm. now rewrite Hf, Hdb.
Qed.

(** Line 61 returns a non-empty string while the local cache is full:
    lines 66-68 drop the smallest key and store the new entry. *)
Lemma get_redis_hit_full prompt self c s ttl oldest :
  let key := Hashlib.md5_hexdigest prompt in
  Dict.contains (local_cache self) key = false ->
  might_exist key self = (Return true, self) ->
  Redis.fault (redis self) = None ->
  Redis.db (redis self) !! ("cache:" +:+ key) = Some (String c s, ttl) ->
  max_local self <= Dict.len (local_cache self) ->
  min (Dict.keys (local_cache self)) = Return oldest ->
  Dict.contains (local_cache self) oldest = true ->
  get prompt self =
  (Return (Some (String c s)),
   with_local_cache
     (Dict.setitem (Dict.remove (local_cache self) oldest) key (String c s))
     (with_redis (Redis.logged (Redis.GET ("cache:" +:+ key)) (redis self)) self)).
Proof.
  intros key Hc Hm Hf Hdb Hfull Hmin Hin. subst key. reach_redis Hc Hm.
  rewrite Hf, Hdb. cbn [fmap option_fmap option_map fst].
  unfold mbind, gets, modify, ret, evict, lift, Dict.delitem, mbind, gets, modify.
  destruct self as [srv cap sz hc bl lc ml].
  unfold with_redis, with_local_cache.
  cbn [local_cache max_local redis capacity size hash_count bloom] in *.
  repeat match goal with
         | |- context [local_cache (mk ?a ?b ?c ?d ?e ?f ?g)] =>
             change (local_cache (mk a b c d e f g)) with f
         | |- context [max_local (mk ?a ?b ?c ?d ?e ?f ?g)] =>
             change (max_local (mk a b c d e f g)) with g
         end.
  replace (Dict.len lc >=? ml) with true by (symmetry; apply Z.geb_le; lia).
  match goal with |- context [Dict.keys ?x] => change x with lc end.
  now rewrite Hmin, Hin.
Qed.

Lemma positions_from_raises item sz seeds e :
  positions_from item sz seeds = Raise e -> e = ZeroDivisionError.
Proof.
  induction seeds as [|i seeds IH]; simpl; [discriminate|].
  unfold mod_. destruct (sz =? 0); simpl; [intros H; now inversion H|].
  destruct (positions_from item sz seeds); simpl; [discriminate|].
  intros H; inversion H; subst. auto.
Qed.

Lemma mark_raises ps : forall self e self',
  for_each ps set_bit self = (Raise e, self') -> e = IndexError.
Proof.
  induction ps as [|p ps IH]; intros self e self'; [discriminate|].
  rewrite mark_cons. unfold Bitarray.setitem, Bitarray.index.
  repeat (match goal with |- context [if ?c then _ else _] => destruct c end;
          cbn [bind]); eauto.
  intros H; now inversion H.
Qed.

(** [add] raises nothing but the errors of [%] and of indexing. *)
Lemma add_raises key self e self' :
  add key self = (Raise e, self') -> e = ZeroDivisionError \/ e = IndexError.
Proof.
  rewrite add_unfold. unfold positions_of.
  destruct (positions_from key (size self) (range (hash_count self))) as [ps|e0] eqn:P.
  - intros H. right. eapply mark_raises; eauto.
  - intros H. left. inversion H; subst. eapply positions_from_raises; eauto.
Qed.

(** The three statements of [set], one after the other. *)
Lemma set_unfold prompt response ttl self :
  let key := Hashlib.md5_hexdigest prompt in
  set prompt response ttl self =
  match add key self with
  | (Return _, s1) =>
      match Redis.setex ("cache:" +:+ key) ttl response (redis s1) with
      | (Return _, srv) =>
          (Return tt,
           with_local_cache (Dict.setitem (local_cache s1) key response)
                            (with_redis srv s1))
      | (Raise e, srv) => (Raise e, with_redis srv s1)
      end
  | (Raise e, s1) => (Raise e, s1)
  end.
Proof.
  intros key. unfold set. fold key. unfold mbind, on_redis, modify.
  destruct (add key self) as [[[]|e] s1]; [|reflexivity].
  now destruct (Redis.setex _ _ _ _) as [[[]|e] srv].
Qed.

(** [set] on a key the local cache does not hold adds an entry, whatever
    [max_local] is. *)
Lemma set_never_evicts (prompt response : string) (ttl : Z) (self self' : BloomCache.t) :
  Dict.contains (local_cache self) (Hashlib.md5_hexdigest prompt) = false ->
  set prompt response ttl self = (Return tt, self') ->
  Dict.len (local_cache self') = Dict.len (local_cache self) + 1.
Proof.
  intros Hc. rewrite set_unfold.
  destruct (add (Hashlib.md5_hexdigest prompt) self) as [[[]|e1] s1] eqn:A; [|discriminate].
  destruct (Redis.setex _ _ _ _) as [[[]|e2] srv]; [|discriminate].
  intros H; inversion H; subst; clear H.
  destruct (add_spec _ _ _ _ A) as (Hframe & _ & _).
  assert (Hlc : local_cache s1 = local_cache self) by (rewrite Hframe; reflexivity).
  unfold Dict.len. cbn [local_cache with_local_cache]. rewrite Hlc.
  rewrite length_setitem_new by now apply contains_false. lia.
Qed.

End ServiceFacts.

(** ** Filter sizing: [_optimal_size] *)

Section SizingFacts.
Import Py BloomCache.

(** Rounding keeps the sign it is given. *)
Lemma binary_round_aux_sign (s : bool) (m e : Z) (l : location) :
  match binary_round_aux prec emax s m e l with
  | S754_zero s' | S754_infinity s' | S754_finite s' _ _ => s' = s
  | S754_nan => True
  end.
Proof.
  unfold binary_round_aux.
  destruct (shr_fexp prec emax m e l) as [mrs' e'].
  destruct (shr_fexp prec emax _ e' loc_Exact) as [mrs'' e''].
  destruct (shr_m mrs'') as [|p|p]; auto.
  destruct (e'' <=? emax - prec); auto.
Qed.

Lemma int_negative_float (q : spec_float) (z : Z) :
  match q with
  | S754_zero _ | S754_nan => True
  | S754_infinity s | S754_finite s _ _ => s = true
  end ->
  int q = Return z -> z <= 0.
Proof.
  destruct q as [s|s| |s m e]; simpl; intros Hs H; try discriminate.
  - inversion H. lia.
  - subst s. inversion H; subst; clear H.
    destruct (0 <=? e).
    + assert (0 <= 2 ^ e) by (apply Z.pow_nonneg; lia). nia.
    + assert (0 <= Z.pos m / 2 ^ (- e)).
      { destruct (Z.eq_dec (2 ^ (- e)) 0) as [->|Hne].
        - now rewrite Z.div_0_r.
        - apply Z.div_pos; [lia|].
          assert (0 <= 2 ^ (- e)) by (apply Z.pow_nonneg; lia). lia. }
      lia.
Qed.

(** A quotient of a non-positive by a positive int truncates to a
    non-positive int. *)
Lemma truediv_nonpos (a b : Z) (q : spec_float) (z : Z) :
  a <= 0 -> 0 < b -> truediv a b = Return q -> int q = Return z -> z <= 0.
Proof.
  intros Ha Hb. destruct b as [|pb|pb]; try lia. destruct a as [|pa|pa]; try lia.
  - simpl. intros H; inversion H; subst. simpl. intros H'; inversion H'. lia.
  - unfold truediv.
    change (Z.neg pa <? 0) with true. change (Z.pos pb <? 0) with false.
    change (Z.to_pos (Z.abs (Z.neg pa))) with pa.
    change (Z.to_pos (Z.abs (Z.pos pb))) with pb.
    unfold SFdiv.
    destruct (SFdiv_core_binary prec emax (Z.pos pa) 0 (Z.pos pb) 0) as [[mz ez] lz].
    pose proof (binary_round_aux_sign (xorb true false) mz ez lz) as Hs.
    destruct (binary_round_aux prec emax (xorb true false) mz ez lz) as [s|s| |s m e];
      intros H; inversion H; subst; clear H; apply int_negative_float; auto.
Qed.

Lemma hash_float_nonneg (m : positive) (e : Z) :
  0 <= hash_float (S754_finite false m e).
Proof.
  unfold hash_float, hash_fix.
  assert (H : 0 <= (Z.pos m * 2 ^ (e mod 61)) mod hash_modulus).
  { apply Z.mod_pos_bound. reflexivity. }
  destruct (Z.eqb_spec ((Z.pos m * 2 ^ (e mod 61)) mod hash_modulus) (-1)); lia.
Qed.

(** Whatever the expected count and whatever the positive rate, the size
    the constructor computes is never positive. *)
Lemma optimal_size_never_positive (n : Z) (m : positive) (e : Z) (sz : Z) :
  0 <= n -> _optimal_size n (S754_finite false m e) = Return sz -> sz <= 0.
Proof.
  intros Hn. unfold _optimal_size. rewrite hash_06185.
  destruct (truediv _ _) as [q|err] eqn:Q; [|discriminate]. cbn [bind].
  eapply truediv_nonpos; [| |exact Q]; [|lia].
  pose proof (hash_float_nonneg m e). nia.
Qed.

Lemma ceil_positive (x : R) : (0 < x)%R -> 1 <= Sizing.ceil x.
Proof.
  intros Hx. unfold Sizing.ceil. destruct (archimed (- x)) as [_ Hup].
  assert (H : (IZR (up (- x)) < 1)%R) by lra.
  apply lt_IZR in H. lia.
Qed.

(** The formula asks for at least one bit. *)
Lemma standard_size_positive (n : Z) (p : R) :
  1 <= n -> (0 < p < 1)%R -> 1 <= Sizing.standard_size n p.
Proof.
  intros Hn [Hp0 Hp1]. apply ceil_positive.
  assert (Hln : (ln p < 0)%R).
  { rewrite <- ln_1. apply ln_increasing; assumption. }
  assert (Hln2 : (0 < ln 2)%R).
  { rewrite <- ln_1. apply ln_increasing; lra. }
  assert (HnR : (1 <= IZR n)%R) by (apply IZR_le; assumption).
  apply Rdiv_lt_0_compat; nra.
Qed.

(** So for no count and no rate does [_optimal_size] return what the
    formula gives. *)
Lemma optimal_size_below_standard (n : Z) (m : positive) (e sz : Z) :
  1 <= n -> (Sizing.value (S754_finite false m e) < 1)%R ->
  _optimal_size n (S754_finite false m e) = Return sz ->
  sz < Sizing.standard_size n (Sizing.value (S754_finite false m e)).
Proof.
  intros Hn Hlt Hsz.
  apply optimal_size_never_positive in Hsz; [|lia].
  assert (1 <= Sizing.standard_size n (Sizing.value (S754_finite false m e))); [|lia].
  apply standard_size_positive; [assumption|]. split; [|assumption].
  simpl. assert (0 < powerRZ 2 e)%R by (apply powerRZ_lt; lra).
  assert (0 < IZR (Z.pos m))%R by (apply IZR_lt; lia). nra.
Qed.

End SizingFacts.

(** ** What the constructor builds, and what every method keeps *)

Section InvariantFacts.
Import Py BloomCache Filter.
Implicit Types (self : BloomCache.t).

Lemma new_length (n : Z) (b : list bool) :
  Bitarray.new n = Return b -> Z.of_nat (length b) = n.
Proof.
  unfold Bitarray.new. destruct (Z.ltb_spec n 0) as [Hlt|Hge]; [discriminate|].
  intros Hb; inversion Hb; subst. rewrite length_replicate. lia.
Qed.

Lemma init_well_sized srv n p self :
  __init__ srv n p = Return self -> well_sized self.
Proof.
  unfold __init__, well_sized.
  destruct (_optimal_size n p) as [sz|e]; [|discriminate]. cbn [bind].
  destruct (_optimal_hash_count sz n) as [k|e]; [|discriminate]. cbn [bind].
  destruct (Bitarray.new sz) as [b|e] eqn:B; [|discriminate]. cbn [bind].
  intros H; inversion H; subst; clear H. cbn [bloom size].
  unfold Bitarray.setall. rewrite length_replicate. now apply new_length.
Qed.

(** The constructor as written returns only for a size of 0: the filter it
    builds has no bit and no hash function. *)
Lemma init_builds_empty_filter srv n m e self :
  0 < n ->
  __init__ srv n (S754_finite false m e) = Return self ->
  size self = 0 /\ hash_count self = 0 /\ bloom self = [] /\ max_local self = 100.
Proof.
  intros Hn. unfold __init__.
  destruct (_optimal_size n (S754_finite false m e)) as [sz|err] eqn:S; [|discriminate].
  cbn [bind]. apply optimal_size_never_positive in S; [|lia].
  destruct (Bitarray.new sz) as [b|err] eqn:B.
  - assert (Hsz : sz = 0).
    { unfold Bitarray.new in B. destruct (Z.ltb_spec sz 0); [discriminate|lia]. }
    subst sz. destruct n as [|pn|pn]; try lia.
    assert (Hk : _optimal_hash_count 0 (Z.pos pn) = Return 0) by (vm_compute; reflexivity).
    rewrite Hk. cbn [bind]. inversion B; subst b.
    intros H; inversion H; subst. cbn. auto.
  - destruct (_optimal_hash_count sz n); discriminate.
Qed.

Lemma add_well_sized key self : well_sized self -> well_sized (snd (add key self)).
Proof.
  unfold well_sized. destruct (add key self) as [r s1] eqn:A.
  destruct (add_spec _ _ _ _ A) as (Hframe & [Hlen _] & _). cbn [snd].
  intros H. rewrite <- Hlen, H, Hframe. reflexivity.
Qed.

(** [get] changes nothing but the local cache and the state of Redis. *)
Lemma get_frame prompt self (P : BloomCache.t -> Prop) :
  (forall d srv, P (with_local_cache d (with_redis srv self))) ->
  P (snd (get prompt self)).
Proof.
  intros HP.
  assert (Hself : P self).
  { specialize (HP (local_cache self) (redis self)). now destruct self. }
  unfold get. unfold mbind at 1. unfold gets at 1.
  destruct (Dict.contains _ _).
  - unfold mbind, lift, ret. now destruct (Dict.getitem _ _).
  - unfold mbind at 1.
    pose proof (might_exist_state (Hashlib.md5_hexdigest prompt) self) as Hs.
    destruct (might_exist _ self) as [[[|]|err] s]; cbn [snd] in Hs; subst s;
      cbn [negb]; try exact Hself.
    unfold mbind, on_redis, Redis.get, gets, ret, modify, evict, lift, Dict.delitem.
    destruct (Redis.fault (redis self)); [apply (HP (local_cache self))|].
    destruct (Redis.db (redis self) !! _) as [[[|c s] ttl]|];
      cbn [fmap option_fmap option_map fst snd];
      try apply (HP (local_cache self)).
    destruct (_ >=? _); [|apply HP].
    unfold mbind, gets, modify. cbv beta.
    destruct (min _); [|apply (HP (local_cache self))].
    destruct (Dict.contains _ _); [apply HP | apply (HP (local_cache self))].
Qed.

(** In particular [get] never touches the filter. *)
Lemma get_keeps_filter prompt self :
  bloom (snd (get prompt self)) = bloom self
  /\ size (snd (get prompt self)) = size self
  /\ hash_count (snd (get prompt self)) = hash_count self.
Proof.
  split; [|split].
  - now apply (get_frame prompt self (fun s => bloom s = bloom self)).
  - now apply (get_frame prompt self (fun s => size s = size self)).
  - now apply (get_frame prompt self (fun s => hash_count s = hash_count self)).
Qed.

Lemma get_well_sized prompt self : well_sized self -> well_sized (snd (get prompt self)).
Proof.
  unfold well_sized. destruct (get_keeps_filter prompt self) as (-> & -> & _). auto.
Qed.

Lemma set_well_sized prompt response ttl self :
  well_sized self -> well_sized (snd (set prompt response ttl self)).
Proof.
  intros H. apply (add_well_sized (Hashlib.md5_hexdigest prompt)) in H.
  rewrite set_unfold.
  destruct (add (Hashlib.md5_hexdigest prompt) self) as [[[]|e1] s1]; [|exact H].
  destruct (Redis.setex _ _ _ _) as [[[]|e2] srv]; exact H.
Qed.

(** Setting bits at positions inside the array cannot fail. *)
Lemma mark_returns ps : forall self,
  Forall (fun p => 0 <= p < Z.of_nat (length (bloom self))) ps ->
  exists self', for_each ps set_bit self = (Return tt, self').
Proof.
  induction ps as [|p ps IH]; intros self Hall; [eexists; reflexivity|].
  inversion Hall as [|? ? Hp Hps]; subst. rewrite mark_cons.
  unfold Bitarray.setitem. rewrite index_in_range by exact Hp. cbn [bind].
  apply IH. cbn [bloom with_bloom]. now rewrite length_insert.
Qed.

(** On a well-sized object with a non-empty bit array, or with no hash
    function, [add] returns. *)
Lemma add_returns key self :
  well_sized self -> 0 < size self \/ hash_count self <= 0 ->
  exists self', add key self = (Return tt, self').
Proof.
  unfold well_sized. intros Hwf Hcase. rewrite add_unfold. unfold positions_of.
  destruct Hcase as [Hpos|Hnone].
  - destruct (positions_from_total key (size self) (range (hash_count self)))
      as [ps Hps]; [lia|].
    rewrite Hps. apply mark_returns. rewrite Hwf.
    eapply positions_from_range; eauto.
  - unfold range. replace (Z.to_nat (hash_count self)) with O by lia.
    eexists; reflexivity.
Qed.

End InvariantFacts.

(** * The claims *)

Section Claims.
Import Py BloomCache Filter.

(** C3 (no false negatives): once [add x] has returned, [might_exist x]
    returns [True] after any further sequence of [add] calls, whatever those
    calls do: no operation of the filter clears a bit. *)
Theorem no_false_negatives (x : string) (later : list string) (self self1 : BloomCache.t) :
  add x self = (Return tt, self1) ->
  might_exist x (Scenario.add_all later self1)
  = (Return true, Scenario.add_all later self1).
Proof.
  intros Hadd.
  destruct (add_spec _ _ _ _ Hadd) as (_ & _ & Hx). specialize (Hx eq_refl).
  destruct (add_all_spec later self1) as (b' & -> & Hcov).
  now apply might_exist_covers.
Qed.

Lemma no_false_negatives_witness :
  let self := Scenario.sized Scenario.empty_server in
  add "A" self = (Return tt, snd (add "A" self))
  /\ might_exist "A" (Scenario.add_all ["B"; "C"; "A"]%string (snd (add "A" self)))
     = (Return true, Scenario.add_all ["B"; "C"; "A"]%string (snd (add "A" self))).
Proof.
  split.
  - vm_compute. reflexivity.
  - apply (no_false_negatives "A" ["B"; "C"; "A"]%string
             (Scenario.sized Scenario.empty_server)).
    vm_compute. reflexivity.
Defined.

(** C10 (idempotent, monotone add): a second [add x] right after the first
    ends the same way and leaves exactly the state the first one left; and
    [add x] never turns an answer [True] of [might_exist y] into another
    answer. *)
Theorem add_idempotent_monotone (x : string) (self : BloomCache.t) :
  add x (snd (add x self)) = add x self
  /\ forall y : string,
       might_exist y self = (Return true, self) ->
       might_exist y (snd (add x self)) = (Return true, snd (add x self)).
Proof.
  split.
  - rewrite (add_unfold x self).
    destruct (positions_of x self) as [ps|e] eqn:P.
    + destruct (for_each ps set_bit self) as [r s1] eqn:R.
      destruct (mark_spec _ _ _ _ R) as (Hframe & _ & _). cbn [snd].
      rewrite add_unfold, Hframe, positions_of_with_bloom, P, <- Hframe.
      pose proof (mark_again ps self) as Hagain. now rewrite R in Hagain.
    + cbn [snd]. now rewrite add_unfold, P.
  - intros y Hy. destruct (add x self) as [r s1] eqn:A. cbn [snd].
    destruct (add_spec _ _ _ _ A) as (-> & Hcov & _).
    now apply might_exist_covers.
Qed.

Lemma add_idempotent_monotone_witness :
  let self := snd (add "B" (Scenario.sized Scenario.empty_server)) in
  might_exist "B" self = (Return true, self)
  /\ add "A" (snd (add "A" self)) = add "A" self
  /\ might_exist "B" (snd (add "A" self)) = (Return true, snd (add "A" self)).
Proof.
  split; [vm_compute; reflexivity|].
  pose proof (add_idempotent_monotone "A"
                (snd (add "B" (Scenario.sized Scenario.empty_server)))) as [H1 H2].
  split; [exact H1|]. apply H2. vm_compute. reflexivity.
Defined.

(** C7 (filter gate): if the key of a prompt is not in the local cache and
    one of its hash positions is a cleared bit of a well-sized filter, [get]
    returns [None] and leaves the whole state as it was; in particular the
    log of calls made to Redis has not grown. *)
Theorem filter_gate_no_backing_call
    (prompt : string) (self : BloomCache.t) (ps : list Z) (pos : Z) :
  let key := Hashlib.md5_hexdigest prompt in
  well_sized self ->
  Dict.contains (local_cache self) key = false ->
  positions_of key self = Return ps ->
  In pos ps ->
  Bitarray.getitem (bloom self) pos = Return false ->
  get prompt self = (Return None, self)
  /\ Redis.log (redis (snd (get prompt self))) = Redis.log (redis self).
Proof.
  intros key Hwf Hc Hps Hin Hbit.
  assert (Hget : get prompt self = (Return None, self)).
  { apply get_filtered; [exact Hc|]. fold key.
    rewrite might_exist_unfold, Hps. f_equal.
    eapply all_set_false; eauto. eapply positions_readable; eauto. }
  split; [exact Hget | now rewrite Hget].
Qed.

Lemma filter_gate_no_backing_call_witness :
  let self := snd (add "B" (Scenario.sized Scenario.empty_server)) in
  well_sized self
  /\ get "A" self = (Return None, self)
  /\ Redis.log (redis (snd (get "A" self))) = Redis.log (redis self).
Proof.
  split; [vm_compute; reflexivity|].
  eapply (filter_gate_no_backing_call "A"
            (snd (add "B" (Scenario.sized Scenario.empty_server)))).
  - vm_compute. reflexivity.
  - vm_compute. reflexivity.
  - vm_compute. reflexivity.
  - left. reflexivity.
  - vm_compute. reflexivity.
Defined.

(** C4 (tiering): when [set prompt v ttl] returns, a [get prompt] made
    right after it returns [v], and it does so from the local cache,
    leaving the state as [set] left it. *)
Theorem store_then_lookup (prompt v : string) (ttl : Z) (self self' : BloomCache.t) :
  set prompt v ttl self = (Return tt, self') ->
  get prompt self' = (Return (Some v), self').
Proof.
  rewrite set_unfold.
  destruct (add (Hashlib.md5_hexdigest prompt) self) as [[[]|e] s1]; [|discriminate].
  destruct (Redis.setex _ _ _ _) as [[[]|e] srv]; [|discriminate].
  intros H; inversion H; subst; clear H.
  apply get_local_hit. cbn [local_cache with_local_cache].
  apply lookup_setitem_eq.
Qed.

Lemma store_then_lookup_witness :
  let self := Scenario.sized Scenario.empty_server in
  set "A" "respA" 3600 self = (Return tt, snd (set "A" "respA" 3600 self))
  /\ get "A" (snd (set "A" "respA" 3600 self))
     = (Return (Some "respA"%string), snd (set "A" "respA" 3600 self)).
Proof.
  split.
  - vm_compute. reflexivity.
  - apply (store_then_lookup "A" "respA" 3600 (Scenario.sized Scenario.empty_server)).
    vm_compute. reflexivity.
Defined.

(** C8 (filter before write): [set] adds the key to the filter before it
    calls Redis.  If [set] raises a Redis error, the state it leaves is the
    one [add] left, with the [SETEX] call logged and nothing else changed:
    the filter answers [True] for the key, and the local cache is as
    before. *)
Theorem filter_set_before_failed_write
    (prompt v : string) (ttl : Z) (e : redis_error) (self self' : BloomCache.t) :
  let key := Hashlib.md5_hexdigest prompt in
  set prompt v ttl self = (Raise (RedisError e), self') ->
  self' = with_redis (Redis.logged (Redis.SETEX ("cache:" +:+ key) ttl v) (redis self))
                     (snd (add key self))
  /\ might_exist key self' = (Return true, self')
  /\ local_cache self' = local_cache self.
Proof.
  intros key. rewrite set_unfold. fold key.
  destruct (add key self) as [[[]|e1] s1] eqn:A.
  - destruct (add_spec _ _ _ _ A) as (Hframe & _ & Hx). specialize (Hx eq_refl).
    assert (Hsrv : redis s1 = redis self) by (rewrite Hframe; reflexivity).
    assert (Hlc : local_cache s1 = local_cache self) by (rewrite Hframe; reflexivity).
    unfold Redis.setex. rewrite Hsrv.
    destruct (Redis.fault (redis self)) as [e2|].
    + intros H; inversion H; subst; clear H. cbn [snd].
      split; [reflexivity|]. split; [|exact Hlc].
      rewrite might_exist_with_redis, Hx. reflexivity.
    + destruct (ttl <=? 0); [|discriminate].
      intros H; inversion H; subst; clear H. cbn [snd].
      split; [reflexivity|]. split; [|exact Hlc].
      rewrite might_exist_with_redis, Hx. reflexivity.
  - intros H; inversion H; subst.
    destruct (add_raises _ _ _ _ A); discriminate.
Qed.

Lemma filter_set_before_failed_write_witness :
  let self := Scenario.sized Scenario.dead_server in
  let self' := snd (set "A" "respA" 3600 self) in
  set "A" "respA" 3600 self = (Raise (RedisError ConnectionError), self')
  /\ might_exist (Hashlib.md5_hexdigest "A") self' = (Return true, self')
  /\ might_exist (Hashlib.md5_hexdigest "A") self = (Return false, self).
Proof.
  split; [vm_compute; reflexivity|]. split; [|vm_compute; reflexivity].
  eapply (filter_set_before_failed_write "A" "respA" 3600 ConnectionError
            (Scenario.sized Scenario.dead_server)).
  vm_compute. reflexivity.
Defined.

(** C9 (frame of a backing-store miss): when the key is not in the local
    cache, the filter answers [True] and Redis has no value for the key,
    [get] returns [None]; the local cache is left untouched (same entries,
    same order), as is the filter: the only change is the logged call. *)
Theorem backing_miss_leaves_local_cache (prompt : string) (self : BloomCache.t) :
  let key := Hashlib.md5_hexdigest prompt in
  Dict.contains (local_cache self) key = false ->
  might_exist key self = (Return true, self) ->
  Redis.fault (redis self) = None ->
  Redis.db (redis self) !! ("cache:" +:+ key) = None ->
  fst (get prompt self) = Return None
  /\ local_cache (snd (get prompt self)) = local_cache self
  /\ bloom (snd (get prompt self)) = bloom self
  /\ Redis.log (redis (snd (get prompt self)))
     = Redis.GET ("cache:" +:+ key) :: Redis.log (redis self).
Proof.
  intros key Hc Hm Hf Hdb.
  rewrite (get_redis_miss prompt self Hc Hm Hf Hdb). repeat split.
Qed.

Lemma backing_miss_leaves_local_cache_witness :
  let self := snd (set "B" "respB" 3600 (Scenario.built Scenario.empty_server)) in
  might_exist (Hashlib.md5_hexdigest "A") self = (Return true, self)
  /\ fst (get "A" self) = Return None
  /\ local_cache (snd (get "A" self)) = local_cache self.
Proof.
  split; [vm_compute; reflexivity|].
  pose proof (backing_miss_leaves_local_cache "A"
    (snd (set "B" "respB" 3600 (Scenario.built Scenario.empty_server)))) as H.
  cbv zeta in H. destruct H as (H1 & H2 & _); try (vm_compute; reflexivity).
  split; assumption.
Defined.

(** C6, as stated, fails: on an object built by the constructor whose Redis
    server cannot be reached, [get] calls Redis, the call raises, and [get]
    does not return [None]. *)
Lemma lookup_failure_counterexample :
  let self := Scenario.built Scenario.dead_server in
  __init__ Scenario.dead_server 1 (literal 5 1) = Return self
  /\ Redis.fault (redis self) = Some ConnectionError
  /\ Redis.log (redis (snd (get "A" self)))
     = [Redis.GET "cache:7fc56270e7a70fa81a5935b72eacbe29"]
  /\ fst (get "A" self) <> Return None.
Proof.
  split; [vm_compute; reflexivity|].
  split; [reflexivity|]. split; [vm_compute; reflexivity|].
  vm_compute. discriminate.
Qed.

(** C6, amended: when the Redis call inside [get] fails, [get] raises that
    error to its caller; the failure touches nothing else: the local cache
    and the filter are as before, so the failed outcome is not cached. *)
Theorem lookup_failure_propagates (prompt : string) (e : redis_error) (self : BloomCache.t) :
  let key := Hashlib.md5_hexdigest prompt in
  Dict.contains (local_cache self) key = false ->
  might_exist key self = (Return true, self) ->
  Redis.fault (redis self) = Some e ->
  fst (get prompt self) = Raise (RedisError e)
  /\ local_cache (snd (get prompt self)) = local_cache self
  /\ bloom (snd (get prompt self)) = bloom self.
Proof.
  intros key Hc Hm Hf.
  rewrite (get_redis_fault prompt self e Hc Hm Hf). repeat split.
Qed.

Lemma lookup_failure_propagates_witness :
  let self := snd (add (Hashlib.md5_hexdigest "A") (Scenario.sized Scenario.dead_server)) in
  might_exist (Hashlib.md5_hexdigest "A") self = (Return true, self)
  /\ fst (get "A" self) = Raise (RedisError ConnectionError)
  /\ local_cache (snd (get "A" self)) = local_cache self.
Proof.
  split; [vm_compute; reflexivity|].
  pose proof (lookup_failure_propagates "A" ConnectionError
    (snd (add (Hashlib.md5_hexdigest "A") (Scenario.sized Scenario.dead_server)))) as H.
  cbv zeta in H. destruct H as (H1 & H2 & _); try (vm_compute; reflexivity).
  split; assumption.
Defined.

(** C1 (filter sizing), evaluated: with the default arguments
    [capacity=1000000, error_rate=0.001] the constructor computes the size
    -1616, where the sizing formula gives 14377588, and raises [ValueError]
    when it allocates the bit array; with [capacity=1, error_rate=0.5], for
    which it returns, the size and the hash count are both 0, where the
    formulas give 2 and 1. *)
Theorem constructor_sizing_evaluated :
  _optimal_size 1000000 (literal 1 3) = Return (-1616)
  /\ (forall srv, bloom_cache srv = Raise ValueError)
  /\ (forall srv, __init__ srv 1 (literal 5 1) = Return (Scenario.built srv))
  /\ (forall srv, size (Scenario.built srv) = 0 /\ hash_count (Scenario.built srv) = 0).
Proof.
  split; [vm_compute; reflexivity|].
  split; [intros srv; vm_compute; reflexivity|].
  split; [intros srv; vm_compute; reflexivity|].
  intros srv; split; reflexivity.
Qed.

(** C2 (capacity of the local cache), evaluated: on the object built by
    [BloomCache(capacity=1, error_rate=0.5)], whose [max_local] is 100,
    a hundred and one [set] calls on distinct prompts leave 101 entries in
    the local cache. *)
Theorem set_overfills_local_cache :
  let self := Scenario.run (Scenario.fill 101) (Scenario.built Scenario.empty_server) in
  __init__ Scenario.empty_server 1 (literal 5 1)
  = Return (Scenario.built Scenario.empty_server)
  /\ max_local self = 100
  /\ Dict.len (local_cache self) = 101
  /\ List.NoDup (Dict.keys (local_cache self)).
Proof.
  split; [vm_compute; reflexivity|].
  split; [vm_compute; reflexivity|]. split; [vm_compute; reflexivity|].
  match goal with |- List.NoDup ?l =>
    assert (H : nodup string_dec l = l) by (vm_compute; reflexivity);
    rewrite <- H; apply NoDup_nodup
  end.
Qed.

(** C5 (eviction order), evaluated: the local cache holds a hundred
    entries stored in the order ['x' * 0, ..., 'x' * 99]; the entry of
    ['x' * 55] is then read, and a [get] of a prompt that only Redis holds
    makes room for its entry.  The entry dropped is the one just read, whose
    key is the smallest; the entry stored first and never read stays. *)
Theorem eviction_drops_smallest_key :
  let key (i : nat) := Hashlib.md5_hexdigest (Scenario.prompt i) in
  let after := snd (get "fresh" Scenario.touched_cache) in
  __init__ Scenario.shared_server 1 (literal 5 1)
  = Return (Scenario.built Scenario.shared_server)
  /\ max_local Scenario.full_cache = 100
  /\ Dict.keys (local_cache Scenario.full_cache) = List.map key (seq 0 100)
  /\ fst (get (Scenario.prompt 55) Scenario.full_cache) = Return (Some "v"%string)
  /\ local_cache Scenario.touched_cache = local_cache Scenario.full_cache
  /\ fst (get "fresh" Scenario.touched_cache) = Return (Some "answer"%string)
  /\ min (Dict.keys (local_cache Scenario.touched_cache)) = Return (key 55%nat)
  /\ Dict.contains (local_cache after) (key 55%nat) = false
  /\ Dict.contains (local_cache after) (key 0%nat) = true
  /\ Dict.len (local_cache after) = 100.
Proof.
  intros key after.
  repeat (match goal with |- _ /\ _ => split end); vm_compute; reflexivity.
Qed.

End Claims.


(** * Further properties of [BloomCache] *)

(** ** More on the local cache and on [min] *)

Section MoreDictFacts.
Import Py.
Implicit Types (d : list (string * string)) (k v : string).

Lemma lookup_setitem_ne d k k' v :
  k <> k' -> Dict.lookup (Dict.setitem d k' v) k = Dict.lookup d k.
Proof.
  intros Hne. induction d as [|[k0 v0] d IH]; simpl.
  - destruct (String.eqb_spec k' k); congruence.
  - destruct (String.eqb_spec k0 k') as [->|Hk0]; simpl.
    + destruct (String.eqb_spec k' k); congruence.
    + now rewrite IH.
Qed.

Lemma length_setitem_old d k v :
  Dict.contains d k = true -> length (Dict.setitem d k v) = length d.
Proof.
  unfold Dict.contains. induction d as [|[k0 v0] d IH]; simpl; [discriminate|].
  destruct (String.eqb k0 k); simpl; [reflexivity|]. intros H. now rewrite IH.
Qed.

Lemma lookup_remove_ne d k k' :
  k <> k' -> Dict.lookup (Dict.remove d k') k = Dict.lookup d k.
Proof.
  intros Hne. induction d as [|[k0 v0] d IH]; simpl; [reflexivity|].
  destruct (String.eqb_spec k0 k') as [->|Hk0]; simpl.
  - destruct (String.eqb_spec k' k); congruence.
  - now rewrite IH.
Qed.

Lemma length_remove d k :
  Dict.contains d k = true -> S (length (Dict.remove d k)) = length d.
Proof.
  unfold Dict.contains. induction d as [|[k0 v0] d IH]; simpl; [discriminate|].
  destruct (String.eqb k0 k); simpl; [reflexivity|]. intros H. now rewrite IH.
Qed.

Lemma contains_remove_absent d k k' :
  Dict.contains d k = false -> Dict.contains (Dict.remove d k') k = false.
Proof.
  unfold Dict.contains. induction d as [|[k0 v0] d IH]; simpl; [reflexivity|].
  destruct (String.eqb k0 k) eqn:E; [discriminate|]. intros H.
  destruct (String.eqb k0 k'); [exact H|]. simpl. rewrite E. auto.
Qed.

Lemma in_keys_contains d k : In k (Dict.keys d) -> Dict.contains d k = true.
Proof.
  unfold Dict.contains, Dict.keys. induction d as [|[k0 v0] d IH]; simpl; [tauto|].
  intros [->|Hin]; [now rewrite String.eqb_refl|].
  destruct (String.eqb k0 k); auto.
Qed.

Lemma ltb_leb (a b : string) : String.ltb a b = true -> String.leb a b = true.
Proof. unfold String.ltb, String.leb. now destruct (a ?= b)%string. Qed.

Lemma not_ltb_leb (a b : string) : String.ltb a b = false -> String.leb b a = true.
Proof.
  unfold String.ltb, String.leb. rewrite (String.compare_antisym a b).
  destruct (b ?= a)%string; simpl; congruence.
Qed.

Lemma leb_refl (a : string) : String.leb a a = true.
Proof. apply Is_true_true. change (String.le a a). reflexivity. Qed.

Lemma leb_trans (a b c : string) :
  String.leb a b = true -> String.leb b c = true -> String.leb a c = true.
Proof.
  intros H1%Is_true_true H2%Is_true_true. apply Is_true_true.
  change (String.le a c). now transitivity b.
Qed.

(** The scan of [min] ends on an element that is below the start and below
    everything scanned. *)
Lemma min_scan (xs : list string) : forall m0 : string,
  let r := fold_left (fun m y => if String.ltb y m then y else m) xs m0 in
  (r = m0 \/ In r xs)
  /\ String.leb r m0 = true
  /\ forall x, In x xs -> String.leb r x = true.
Proof.
  induction xs as [|y xs IH]; intros m0; simpl.
  - split; [now left|]. split; [apply leb_refl | tauto].
  - destruct (IH (if String.ltb y m0 then y else m0)) as (Hin & Hle & Hall).
    destruct (String.ltb y m0) eqn:E.
    + split; [destruct Hin; auto|]. split.
      * eapply leb_trans; [exact Hle | now apply ltb_leb].
      * intros x [<-|Hx]; auto.
    + split; [destruct Hin; auto|]. split; [exact Hle|].
      intros x [<-|Hx]; auto. eapply leb_trans; [exact Hle | now apply not_ltb_leb].
Qed.

(** [min] returns a key of the list that no key of the list is below. *)
Lemma min_spec (xs : list string) (k : string) :
  min xs = Return k -> In k xs /\ forall x, In x xs -> String.leb k x = true.
Proof.
  destruct xs as [|x0 xs]; simpl; [discriminate|]. intros H; inversion H; subst; clear H.
  destruct (min_scan xs x0) as (Hin & Hle & Hall). split.
  - simpl. destruct Hin as [Hin|Hin]; [left; now symmetry | now right].
  - intros x [<-|Hx]; auto.
Qed.

Lemma min_nonempty (xs : list string) : xs <> [] -> exists k, min xs = Return k.
Proof. destruct xs; [congruence | simpl; eauto]. Qed.

Lemma keys_setitem d k v :
  Dict.keys (Dict.setitem d k v)
  = if Dict.contains d k then Dict.keys d else Dict.keys d ++ [k].
Proof.
  unfold Dict.contains, Dict.keys. induction d as [|[k0 v0] d IH]; simpl; [reflexivity|].
  destruct (String.eqb k0 k); simpl; [reflexivity|]. rewrite IH.
  now destruct (Dict.lookup d k).
Qed.

Lemma in_keys_remove d k x : In x (Dict.keys (Dict.remove d k)) -> In x (Dict.keys d).
Proof.
  unfold Dict.keys. induction d as [|[k0 v0] d IH]; simpl; [tauto|].
  destruct (String.eqb k0 k); simpl; tauto.
Qed.

(** The entries of a [dict] have distinct keys, and its operations keep
    them so: the list stands for a [dict] throughout. *)
Lemma nodup_setitem d k v :
  List.NoDup (Dict.keys d) -> List.NoDup (Dict.keys (Dict.setitem d k v)).
Proof.
  intros Hd. rewrite keys_setitem. destruct (Dict.contains d k) eqn:E; [exact Hd|].
  apply List.NoDup_app; [exact Hd | repeat constructor; simpl; tauto |].
  intros x Hx [<-|[]]. apply in_keys_contains in Hx. congruence.
Qed.

Lemma nodup_remove d k :
  List.NoDup (Dict.keys d) -> List.NoDup (Dict.keys (Dict.remove d k)).
Proof.
  unfold Dict.keys. induction d as [|[k0 v0] d IH]; simpl; [auto|].
  intros Hd. inversion Hd as [|? ? Hk0 Hrest]; subst.
  destruct (String.eqb k0 k); simpl; [exact Hrest|].
  constructor; [|auto]. intros Hin. apply Hk0. now apply (in_keys_remove d k).
Qed.

End MoreDictFacts.

(** ** [get] and [set], path by path *)

Section MoreServiceFacts.
Import Py BloomCache Filter.
Implicit Types (self : BloomCache.t) (prompt : string).

(** All the ways through [get]: lines 53-54, 57-58, 61, 62-68 and 69. *)
Lemma get_unfold prompt self :
  let key := Hashlib.md5_hexdigest prompt in
  let name := "cache:" +:+ key in
  let d := local_cache self in
  let asked := with_redis (Redis.logged (Redis.GET name) (redis self)) self in
  get prompt self =
  match Dict.lookup d key with
  | Some v => (Return (Some v), self)
  | None =>
      match fst (might_exist key self) with
      | Raise e => (Raise e, self)
      | Return false => (Return None, self)
      | Return true =>
          match Redis.fault (redis self) with
          | Some e => (Raise (RedisError e), asked)
          | None =>
              match fst <$> Redis.db (redis self) !! name with
              | Some (String c s) =>
                  if Dict.len d >=? max_local self then
                    match min (Dict.keys d) with
                    | Return oldest =>
                        if Dict.contains d oldest then
                          (Return (Some (String c s)),
                           with_local_cache
                             (Dict.setitem (Dict.remove d oldest) key (String c s)) asked)
                        else (Raise KeyError, asked)
                    | Raise e => (Raise e, asked)
                    end
                  else
                    (Return (Some (String c s)),
                     with_local_cache (Dict.setitem d key (String c s)) asked)
              | r => (Return r, asked)
              end
          end
      end
  end.
Proof.
  intros key name d asked. subst key name d asked.
  assert (Hlc : forall r, local_cache (with_redis r self) = local_cache self)
    by reflexivity.
  assert (Hml : forall r, max_local (with_redis r self) = max_local self)
    by reflexivity.
  unfold get.
  cbv beta iota zeta delta [mbind gets ret modify evict lift on_redis Redis.get
                            Dict.delitem Dict.getitem Dict.contains].
  destruct (Dict.lookup (local_cache self) (Hashlib.md5_hexdigest prompt)) as [v|];
    [reflexivity|].
  pose proof (might_exist_state (Hashlib.md5_hexdigest prompt) self) as Hs.
  destruct (might_exist _ self) as [[[|]|err] s0]; cbn [fst snd] in Hs |- *; subst s0;
    cbv beta iota delta [negb]; try reflexivity.
  destruct (Redis.fault (redis self)); cbv beta iota; [reflexivity|].
  destruct (Redis.db (redis self) !! _) as [[[|c s] ttl]|];
    cbn [fmap option_fmap option_map fst]; cbv beta iota; try reflexivity.
  rewrite ?Hlc, ?Hml.
  destruct (_ >=? _); cbv beta iota; [|reflexivity].
  rewrite ?Hlc.
  destruct (min _) as [oldest|]; cbv beta iota; [|reflexivity].
  rewrite ?Hlc.
  destruct (Dict.lookup (local_cache self) oldest); reflexivity.
Qed.

End MoreServiceFacts.

(** ** What the operations keep of an object *)

Section ShapeFacts.
Import Py BloomCache Filter.
Implicit Types (self : BloomCache.t) (prompt : string).

Lemma might_exist_no_hashes key self :
  hash_count self <= 0 -> might_exist key self = (Return true, self).
Proof.
  intros H. rewrite might_exist_unfold. unfold positions_of, range.
  now replace (Z.to_nat (hash_count self)) with O by lia.
Qed.

Lemma might_exist_local_cache key d self :
  might_exist key (with_local_cache d self)
  = (fst (might_exist key self), with_local_cache d self).
Proof.
  rewrite !might_exist_unfold.
  change (positions_of key (with_local_cache d self)) with (positions_of key self).
  now destruct (positions_of key self).
Qed.

Lemma get_keeps_shape prompt self :
  size (snd (get prompt self)) = size self
  /\ hash_count (snd (get prompt self)) = hash_count self
  /\ max_local (snd (get prompt self)) = max_local self.
Proof.
  split; [|split].
  - now apply (get_frame prompt self (fun s => size s = size self)).
  - now apply (get_frame prompt self (fun s => hash_count s = hash_count self)).
  - now apply (get_frame prompt self (fun s => max_local s = max_local self)).
Qed.

Lemma set_keeps_shape prompt response ttl self :
  size (snd (set prompt response ttl self)) = size self
  /\ hash_count (snd (set prompt response ttl self)) = hash_count self
  /\ max_local (snd (set prompt response ttl self)) = max_local self.
Proof.
  rewrite set_unfold.
  destruct (add (Hashlib.md5_hexdigest prompt) self) as [r s1] eqn:A.
  destruct (add_spec _ _ _ _ A) as (Hframe & _ & _).
  assert (Hs : size s1 = size self /\ hash_count s1 = hash_count self
               /\ max_local s1 = max_local self) by (rewrite Hframe; repeat split).
  destruct r as [[]|e1]; [|exact Hs].
  destruct (Redis.setex _ _ _ _) as [[[]|e2] srv]; exact Hs.
Qed.

Lemma run_keeps_shape ops : forall self,
  size (Scenario.run ops self) = size self
  /\ hash_count (Scenario.run ops self) = hash_count self
  /\ max_local (Scenario.run ops self) = max_local self.
Proof.
  induction ops as [|o ops IH]; intros self; [repeat split|].
  change (Scenario.run (o :: ops) self) with (Scenario.run ops (Scenario.step self o)).
  destruct (IH (Scenario.step self o)) as (-> & -> & ->).
  destruct o as [prompt|prompt response ttl]; simpl.
  - apply get_keeps_shape.
  - apply set_keeps_shape.
Qed.

Lemma all_set_returns (b : list bool) (ps : list Z) :
  Forall (fun p => exists v, Bitarray.getitem b p = Return v) ps ->
  exists r, Bitarray.all_set b ps = Return r.
Proof.
  induction 1 as [|p ps [v Hv] _ IH]; simpl; [eauto|].
  rewrite Hv. simpl. destruct v; eauto.
Qed.

Lemma positions_from_length item sz seeds ps :
  positions_from item sz seeds = Return ps -> length ps = length seeds.
Proof.
  revert ps. induction seeds as [|i seeds IH]; intros ps; simpl.
  - intros H; now inversion H.
  - destruct (mod_ (Mmh3.hash item i) sz); [|discriminate]. simpl.
    destruct (positions_from item sz seeds) as [ps'|]; [|discriminate]. simpl.
    intros H; inversion H; subst. simpl. now rewrite (IH ps').
Qed.

Lemma get_keeps_dict prompt self :
  List.NoDup (Dict.keys (local_cache self)) ->
  List.NoDup (Dict.keys (local_cache (snd (get prompt self)))).
Proof.
  intros Hd. rewrite get_unfold.
  destruct (Dict.lookup _ _); [exact Hd|].
  destruct (fst (might_exist _ self)) as [[|]|err]; try exact Hd.
  destruct (Redis.fault _); [exact Hd|].
  destruct (fst <$> _ !! _) as [[|c s]|]; try exact Hd.
  destruct (_ >=? _); [|now apply nodup_setitem].
  destruct (min _); [|exact Hd].
  destruct (Dict.contains _ _); [|exact Hd].
  now apply nodup_setitem, nodup_remove.
Qed.

Lemma set_keeps_dict prompt response ttl self :
  List.NoDup (Dict.keys (local_cache self)) ->
  List.NoDup (Dict.keys (local_cache (snd (set prompt response ttl self)))).
Proof.
  intros Hd. rewrite set_unfold.
  destruct (add (Hashlib.md5_hexdigest prompt) self) as [r s1] eqn:A.
  destruct (add_spec _ _ _ _ A) as (Hframe & _ & _).
  assert (Hlc : local_cache s1 = local_cache self) by (rewrite Hframe; reflexivity).
  destruct r as [[]|e1]; [|cbn [snd]; now rewrite Hlc].
  destruct (Redis.setex _ _ _ _) as [[[]|e2] srv];
    cbn [snd local_cache with_local_cache with_redis]; rewrite Hlc;
    [now apply nodup_setitem | exact Hd].
Qed.

Lemma run_keeps_dict ops : forall self,
  List.NoDup (Dict.keys (local_cache self)) ->
  List.NoDup (Dict.keys (local_cache (Scenario.run ops self))).
Proof.
  induction ops as [|o ops IH]; intros self Hd; [exact Hd|].
  change (Scenario.run (o :: ops) self) with (Scenario.run ops (Scenario.step self o)).
  apply IH. destruct o as [prompt|prompt response ttl]; simpl.
  - now apply get_keeps_dict.
  - now apply set_keeps_dict.
Qed.

(** The server a [set] that returned has left behind. *)
Lemma set_returns_server prompt v ttl self self' :
  set prompt v ttl self = (Return tt, self') ->
  Redis.fault (redis self') = None
  /\ Redis.db (redis self') !! ("cache:" +:+ Hashlib.md5_hexdigest prompt) = Some (v, ttl).
Proof.
  rewrite set_unfold.
  destruct (add (Hashlib.md5_hexdigest prompt) self) as [[[]|e] s1]; [|discriminate].
  unfold Redis.setex.
  destruct (Redis.fault (redis s1)) eqn:Hf; [discriminate|].
  destruct (ttl <=? 0); [discriminate|].
  intros H; inversion H; subst; clear H.
  cbn [redis with_local_cache with_redis Redis.db Redis.fault Redis.logged].
  split; [exact Hf|]. apply lookup_insert_eq.
Qed.

End ShapeFacts.

(** ** The properties *)

Section Extras.
Import Py BloomCache Filter.

(** X1 (what the constructor builds): for a positive capacity and a
    positive rate, [BloomCache(capacity, error_rate)] either raises or
    returns the object with size 0, hash count 0, an empty bit array, an
    empty local cache and [max_local = 100]. *)
Theorem init_returns_empty_filter
    (srv : Redis.server) (n : Z) (m : positive) (e : Z) (self : BloomCache.t) :
  0 < n ->
  __init__ srv n (S754_finite false m e) = Return self ->
  self = BloomCache.mk srv n 0 0 [] [] 100.
Proof.
  intros Hn. unfold __init__.
  destruct (_optimal_size n (S754_finite false m e)) as [sz|err] eqn:S; [|discriminate].
  cbn [bind]. apply optimal_size_never_positive in S; [|lia].
  destruct (Bitarray.new sz) as [b|err] eqn:B.
  - assert (Hsz : sz = 0).
    { unfold Bitarray.new in B. destruct (Z.ltb_spec sz 0); [discriminate|lia]. }
    subst sz. destruct n as [|pn|pn]; try lia.
    assert (Hk : _optimal_hash_count 0 (Z.pos pn) = Return 0) by (vm_compute; reflexivity).
    rewrite Hk. cbn [bind]. inversion B; subst b.
    intros H; inversion H; subst. reflexivity.
  - destruct (_optimal_hash_count sz n); discriminate.
Qed.

Lemma init_returns_empty_filter_witness :
  literal 5 1 = S754_finite false 4503599627370496 (-53)
  /\ __init__ Scenario.empty_server 1 (S754_finite false 4503599627370496 (-53))
     = Return (Scenario.built Scenario.empty_server)
  /\ Scenario.built Scenario.empty_server = BloomCache.mk Scenario.empty_server 1 0 0 [] [] 100.
Proof.
  split; [vm_compute; reflexivity|]. split; [vm_compute; reflexivity|].
  apply (init_returns_empty_filter Scenario.empty_server 1 4503599627370496 (-53)).
  - lia.
  - vm_compute. reflexivity.
Defined.

(** X2 (the filter of a built object rejects nothing): on an object the
    constructor returned for a positive capacity and rate, after any
    sequence of [get] and [set] calls, [might_exist] answers [True] for every
    key, and a [get] whose key is not in the local cache makes its call to
    Redis. *)
Theorem built_filter_never_rejects
    (srv : Redis.server) (n : Z) (m : positive) (e : Z) (self : BloomCache.t)
    (ops : list Scenario.op) (prompt : string) :
  let key := Hashlib.md5_hexdigest prompt in
  let now := Scenario.run ops self in
  0 < n ->
  __init__ srv n (S754_finite false m e) = Return self ->
  might_exist key now = (Return true, now)
  /\ (Dict.contains (local_cache now) key = false ->
      Redis.log (redis (snd (get prompt now)))
      = Redis.GET ("cache:" +:+ key) :: Redis.log (redis now)).
Proof.
  intros key now Hn Hinit.
  assert (Hk : hash_count now = 0).
  { destruct (run_keeps_shape ops self) as (_ & Hk & _). subst now. rewrite Hk.
    now destruct (init_builds_empty_filter _ _ _ _ _ Hn Hinit) as (_ & Hk0 & _). }
  assert (Hm : might_exist key now = (Return true, now))
    by (apply might_exist_no_hashes; lia).
  split; [exact Hm|]. intros Hc. apply contains_false in Hc.
  rewrite get_unfold. fold key. rewrite Hc, Hm. cbn [fst].
  destruct (Redis.fault (redis now)); [reflexivity|].
  destruct (fst <$> Redis.db (redis now) !! _) as [[|c s]|]; try reflexivity.
  destruct (_ >=? _); [|reflexivity].
  destruct (min _); [|reflexivity].
  destruct (Dict.contains _ _); reflexivity.
Qed.

Lemma built_filter_never_rejects_witness :
  let now := Scenario.run [Scenario.Set_ "B" "respB" 3600; Scenario.Get "C"]
               (Scenario.built Scenario.empty_server) in
  fst (might_exist (Hashlib.md5_hexdigest "never-seen") now) = Return true
  /\ Redis.log (redis (snd (get "never-seen" now)))
     = Redis.GET ("cache:" +:+ Hashlib.md5_hexdigest "never-seen") :: Redis.log (redis now).
Proof.
  pose proof (built_filter_never_rejects Scenario.empty_server 1 4503599627370496 (-53)
                (Scenario.built Scenario.empty_server)
                [Scenario.Set_ "B" "respB" 3600; Scenario.Get "C"] "never-seen") as H.
  cbv zeta in H. destruct H as [H1 H2]; [lia | vm_compute; reflexivity|].
  split; [now rewrite H1|]. apply H2. vm_compute. reflexivity.
Defined.

(** X3 (capacity 0): [BloomCache(capacity=0, error_rate=p)] raises
    [ZeroDivisionError] whatever [p] is: the size comes out as 0, and
    [_optimal_hash_count(m, 0)] divides by zero for every [m]. *)
Theorem init_zero_capacity_raises (srv : Redis.server) (p : spec_float) (m : Z) :
  _optimal_size 0 p = Return 0
  /\ _optimal_hash_count m 0 = Raise ZeroDivisionError
  /\ __init__ srv 0 p = Raise ZeroDivisionError.
Proof.
  assert (Hs : _optimal_size 0 p = Return 0).
  { unfold _optimal_size. rewrite hash_06185. reflexivity. }
  split; [exact Hs|]. split; [now destruct m|].
  unfold __init__. rewrite Hs. reflexivity.
Qed.

(** X4 (hash positions): on an object whose size is positive,
    [_get_hash_positions] returns, without changing the object, as many
    positions as there are hash functions, each of them in [0, size). *)
Theorem hash_positions_in_range (item : string) (self : BloomCache.t) :
  0 < size self ->
  exists ps,
    _get_hash_positions item self = (Return ps, self)
    /\ length ps = Z.to_nat (hash_count self)
    /\ Forall (fun p => 0 <= p < size self) ps.
Proof.
  intros Hsize. unfold _get_hash_positions.
  destruct (positions_from_total item (size self) (range (hash_count self)))
    as [ps Hps]; [lia|].
  exists ps. rewrite Hps. split; [reflexivity|]. split.
  - rewrite (positions_from_length _ _ _ _ Hps). unfold range.
    now rewrite length_map, length_seq.
  - eapply positions_from_range; eauto.
Qed.

Lemma hash_positions_in_range_witness :
  exists ps,
    _get_hash_positions "A" (Scenario.sized Scenario.empty_server)
    = (Return ps, Scenario.sized Scenario.empty_server)
    /\ length ps = 3%nat
    /\ Forall (fun p => 0 <= p < 64) ps.
Proof.
  apply (hash_positions_in_range "A" (Scenario.sized Scenario.empty_server)).
  reflexivity.
Defined.

(** X5 (size 0 with hash functions): on an object with size 0 and at
    least one hash function, the [%] of [_get_hash_positions] raises
    [ZeroDivisionError]: [might_exist] and [add] raise it, [set] raises it
    before it calls Redis, and so does [get] for a key the local cache does
    not hold; none of them changes the object. *)
Theorem zero_size_filter_raises
    (prompt response : string) (ttl : Z) (self : BloomCache.t) :
  let key := Hashlib.md5_hexdigest prompt in
  size self = 0 -> 0 < hash_count self ->
  might_exist key self = (Raise ZeroDivisionError, self)
  /\ add key self = (Raise ZeroDivisionError, self)
  /\ set prompt response ttl self = (Raise ZeroDivisionError, self)
  /\ (Dict.contains (local_cache self) key = false ->
      get prompt self = (Raise ZeroDivisionError, self)).
Proof.
  intros key Hsize Hk.
  assert (Hps : forall item, positions_of item self = Raise ZeroDivisionError).
  { intros item. unfold positions_of, range. rewrite Hsize.
    destruct (Z.to_nat (hash_count self)) as [|k] eqn:E; [lia|]. reflexivity. }
  assert (Hm : might_exist key self = (Raise ZeroDivisionError, self))
    by (rewrite might_exist_unfold, Hps; reflexivity).
  assert (Ha : add key self = (Raise ZeroDivisionError, self))
    by (rewrite add_unfold, Hps; reflexivity).
  split; [exact Hm|]. split; [exact Ha|]. split.
  - rewrite set_unfold. fold key. now rewrite Ha.
  - intros Hc. apply contains_false in Hc.
    rewrite get_unfold. fold key. now rewrite Hc, Hm.
Qed.

Lemma zero_size_filter_raises_witness :
  let self := BloomCache.mk Scenario.empty_server 1 0 3 [] [] 100 in
  set "A" "respA" 3600 self = (Raise ZeroDivisionError, self)
  /\ get "A" self = (Raise ZeroDivisionError, self).
Proof.
  pose proof (zero_size_filter_raises "A" "respA" 3600
                (BloomCache.mk Scenario.empty_server 1 0 3 [] [] 100)) as H.
  cbv zeta in H. destruct H as (_ & _ & H3 & H4); [reflexivity | reflexivity |].
  split; [exact H3|]. apply H4. reflexivity.
Defined.

(** X6 (the filter calls return): on an object whose bit array has
    [size] bits, [size] positive, [might_exist] returns a bool and leaves
    the object as it is, and [add] returns and leaves the bit array at the
    same length. *)
Theorem filter_calls_return (key : string) (self : BloomCache.t) :
  well_sized self -> 0 < size self ->
  (exists b, might_exist key self = (Return b, self))
  /\ (exists self', add key self = (Return tt, self')
                    /\ well_sized self' /\ size self' = size self).
Proof.
  intros Hwf Hsize. split.
  - rewrite might_exist_unfold.
    destruct (positions_from_total key (size self) (range (hash_count self)))
      as [ps Hps]; [lia|].
    fold (positions_of key self) in Hps. rewrite Hps.
    destruct (all_set_returns (bloom self) ps) as [b Hb];
      [eapply positions_readable; eauto|].
    exists b. now rewrite Hb.
  - destruct (add_returns key self Hwf) as [self' Hadd]; [now left|].
    exists self'. split; [exact Hadd|].
    pose proof (add_well_sized key self Hwf) as Hwf'. rewrite Hadd in Hwf'.
    split; [exact Hwf'|].
    destruct (add_spec _ _ _ _ Hadd) as (-> & _ & _). reflexivity.
Qed.

Lemma filter_calls_return_witness :
  let self := Scenario.sized Scenario.empty_server in
  well_sized self
  /\ (exists b, might_exist "A" self = (Return b, self))
  /\ (exists self', add "A" self = (Return tt, self')
                    /\ well_sized self' /\ size self' = size self).
Proof.
  split; [reflexivity|].
  apply (filter_calls_return "A" (Scenario.sized Scenario.empty_server));
    reflexivity.
Defined.

(** X7 (local entries outlive Redis): once [set prompt v ttl] has
    returned, [get prompt] returns [v] from the local cache whatever has
    become of the Redis server since (key expired or deleted, server
    unreachable), and does not call it. *)
Theorem local_hit_ignores_redis
    (prompt v : string) (ttl : Z) (self self' : BloomCache.t) (srv : Redis.server) :
  set prompt v ttl self = (Return tt, self') ->
  get prompt (with_redis srv self') = (Return (Some v), with_redis srv self').
Proof.
  rewrite set_unfold.
  destruct (add (Hashlib.md5_hexdigest prompt) self) as [[[]|e] s1]; [|discriminate].
  destruct (Redis.setex _ _ _ _) as [[[]|e] srv1]; [|discriminate].
  intros H; inversion H; subst; clear H.
  apply get_local_hit. cbn [local_cache with_local_cache with_redis].
  apply lookup_setitem_eq.
Qed.

Lemma local_hit_ignores_redis_witness :
  let self := Scenario.built Scenario.empty_server in
  let self' := snd (set "A" "respA" 3600 self) in
  fst (set "A" "respA" 3600 self) = Return tt
  /\ fst (get "A" (with_redis Scenario.dead_server self')) = Return (Some "respA"%string)
  /\ Redis.log (redis (snd (get "A" (with_redis Scenario.dead_server self')))) = [].
Proof.
  split; [vm_compute; reflexivity|].
  pose proof (local_hit_ignores_redis "A" "respA" 3600
                (Scenario.built Scenario.empty_server)
                (snd (set "A" "respA" 3600 (Scenario.built Scenario.empty_server)))
                Scenario.dead_server) as H.
  rewrite H; [split; reflexivity|]. vm_compute. reflexivity.
Defined.

(** X8 (what [set] does to the local cache): when [set prompt v ttl]
    returns, the local cache maps the key of the prompt to [v] and every
    other key to what it held; a key that was present keeps its place, so
    the keys, their order and their number are unchanged. *)
Theorem set_writes_one_entry
    (prompt v : string) (ttl : Z) (self self' : BloomCache.t) :
  let key := Hashlib.md5_hexdigest prompt in
  set prompt v ttl self = (Return tt, self') ->
  Dict.lookup (local_cache self') key = Some v
  /\ (forall k, k <> key ->
        Dict.lookup (local_cache self') k = Dict.lookup (local_cache self) k)
  /\ (Dict.contains (local_cache self) key = true ->
        Dict.keys (local_cache self') = Dict.keys (local_cache self)).
Proof.
  intros key. rewrite set_unfold. fold key.
  destruct (add key self) as [[[]|e] s1] eqn:A; [|discriminate].
  destruct (Redis.setex _ _ _ _) as [[[]|e] srv1]; [|discriminate].
  intros H; inversion H; subst; clear H.
  destruct (add_spec _ _ _ _ A) as (Hframe & _ & _).
  assert (Hlc : local_cache s1 = local_cache self) by (rewrite Hframe; reflexivity).
  cbn [local_cache with_local_cache]. rewrite Hlc.
  split; [apply lookup_setitem_eq|]. split.
  - intros k Hk. now apply lookup_setitem_ne.
  - unfold Dict.contains, Dict.keys. generalize (local_cache self) as d.
    induction d as [|[k0 v0] d IH]; simpl; [discriminate|].
    destruct (String.eqb k0 key); simpl; [reflexivity|].
    intros Hd. now rewrite IH.
Qed.

Lemma set_writes_one_entry_witness :
  let self := Scenario.run [Scenario.Set_ "A" "old" 60; Scenario.Set_ "B" "respB" 60]
                (Scenario.built Scenario.empty_server) in
  let self' := snd (set "A" "new" 60 self) in
  fst (set "A" "new" 60 self) = Return tt
  /\ Dict.lookup (local_cache self') (Hashlib.md5_hexdigest "A") = Some "new"%string
  /\ Dict.keys (local_cache self') = Dict.keys (local_cache self).
Proof.
  split; [vm_compute; reflexivity|].
  pose proof (set_writes_one_entry "A" "new" 60
    (Scenario.run [Scenario.Set_ "A" "old" 60; Scenario.Set_ "B" "respB" 60]
       (Scenario.built Scenario.empty_server))
    (snd (set "A" "new" 60
       (Scenario.run [Scenario.Set_ "A" "old" 60; Scenario.Set_ "B" "respB" 60]
          (Scenario.built Scenario.empty_server))))) as H.
  cbv zeta in H. destruct H as (H1 & _ & H3); [vm_compute; reflexivity|].
  split; [exact H1|]. apply H3. vm_compute. reflexivity.
Defined.

(** X9 (the bound on the [get] path): a [get] never takes the local cache
    beyond [max_local]: if the local cache holds at most [max_local]
    entries, it still does after any sequence of [get] calls, whatever they
    return or raise. *)
Theorem get_keeps_capacity_bound (prompts : list string) (self : BloomCache.t) :
  Dict.len (local_cache self) <= max_local self ->
  Dict.len (local_cache (Scenario.run (List.map Scenario.Get prompts) self))
  <= max_local self.
Proof.
  revert self. induction prompts as [|prompt prompts IH]; intros self Hb; [exact Hb|].
  change (Scenario.run (List.map Scenario.Get (prompt :: prompts)) self)
    with (Scenario.run (List.map Scenario.Get prompts) (snd (get prompt self))).
  destruct (get_keeps_shape prompt self) as (_ & _ & Hml). rewrite <- Hml.
  apply IH. rewrite Hml. clear IH.
  rewrite get_unfold.
  destruct (Dict.lookup _ _) as [v|] eqn:L; [exact Hb|].
  destruct (fst (might_exist _ self)) as [[|]|err]; try exact Hb.
  destruct (Redis.fault _); [exact Hb|].
  destruct (fst <$> _ !! _) as [[|c s]|]; try exact Hb.
  unfold Dict.len in *. destruct (_ >=? _) eqn:G.
  - destruct (min _) as [oldest|]; [|exact Hb].
    destruct (Dict.contains _ oldest) eqn:Hin; [|exact Hb].
    cbn [snd local_cache with_local_cache].
    rewrite length_setitem_new.
    + rewrite (length_remove _ _ Hin). exact Hb.
    + apply contains_false, contains_remove_absent. now apply contains_false.
  - cbn [snd local_cache with_local_cache].
    rewrite (length_setitem_new _ _ _ L).
    rewrite Z.geb_leb in G. apply Z.leb_gt in G. lia.
Qed.

Lemma get_keeps_capacity_bound_witness :
  let self := BloomCache.mk Scenario.shared_server 1 0 0 []
                [("0a"%string, "x"%string)] 1 in
  let after := Scenario.run (List.map Scenario.Get ["fresh"; "A"; "fresh"]%string) self in
  Dict.keys (local_cache after) = [Hashlib.md5_hexdigest "fresh"]
  /\ Dict.len (local_cache after) <= 1.
Proof.
  split; [vm_compute; reflexivity|].
  apply (get_keeps_capacity_bound ["fresh"; "A"; "fresh"]%string
           (BloomCache.mk Scenario.shared_server 1 0 0 [] [("0a"%string, "x"%string)] 1)).
  vm_compute. discriminate.
Defined.

(** X10 (which entry a full local cache gives up): when [get] brings a
    non-empty value from Redis into a local cache that is full, the entry
    it deletes is the one whose key is smallest in string order, whenever
    it was stored or read; the other entries keep their order and the new
    entry goes last. *)
Theorem eviction_removes_smallest_key
    (prompt : string) (self : BloomCache.t) (c : ascii) (s : string) (ttl : Z) :
  let key := Hashlib.md5_hexdigest prompt in
  let d := local_cache self in
  Dict.contains d key = false ->
  fst (might_exist key self) = Return true ->
  Redis.fault (redis self) = None ->
  Redis.db (redis self) !! ("cache:" +:+ key) = Some (String c s, ttl) ->
  max_local self <= Dict.len d ->
  d <> [] ->
  exists oldest,
    In oldest (Dict.keys d)
    /\ (forall k, In k (Dict.keys d) -> String.leb oldest k = true)
    /\ fst (get prompt self) = Return (Some (String c s))
    /\ local_cache (snd (get prompt self))
       = Dict.setitem (Dict.remove d oldest) key (String c s).
Proof.
  intros key d Hc Hm Hf Hdb Hfull Hne.
  destruct (min_nonempty (Dict.keys d)) as [oldest Hmin].
  { unfold Dict.keys. destruct d; [congruence | discriminate]. }
  destruct (min_spec _ _ Hmin) as [Hin Hle].
  exists oldest. split; [exact Hin|]. split; [exact Hle|].
  apply contains_false in Hc.
  rewrite get_unfold. fold key d. rewrite Hc, Hm, Hf, Hdb.
  cbn [fmap option_fmap option_map fst].
  replace (Dict.len d >=? max_local self) with true by (symmetry; apply Z.geb_le; lia).
  rewrite Hmin, (in_keys_contains _ _ Hin). split; reflexivity.
Qed.

Lemma eviction_removes_smallest_key_witness :
  let self := Scenario.run [Scenario.Set_ "B" "respB" 60; Scenario.Set_ "A" "respA" 60]
                (BloomCache.mk Scenario.shared_server 1 0 0 [] [] 2) in
  Dict.keys (local_cache self) = [Hashlib.md5_hexdigest "B"; Hashlib.md5_hexdigest "A"]
  /\ exists oldest,
       In oldest (Dict.keys (local_cache self))
       /\ (forall k, In k (Dict.keys (local_cache self)) -> String.leb oldest k = true)
       /\ fst (get "fresh" self) = Return (Some "answer"%string)
       /\ local_cache (snd (get "fresh" self))
          = Dict.setitem (Dict.remove (local_cache self) oldest)
                         (Hashlib.md5_hexdigest "fresh") "answer".
Proof.
  split; [vm_compute; reflexivity|].
  apply (eviction_removes_smallest_key "fresh"
    (Scenario.run [Scenario.Set_ "B" "respB" 60; Scenario.Set_ "A" "respA" 60]
       (BloomCache.mk Scenario.shared_server 1 0 0 [] [] 2)) "a" "nswer" 3600);
    try (vm_compute; reflexivity).
  - vm_compute. discriminate.
  - vm_compute. discriminate.
Defined.

(** X11 (an empty answer is not kept): when Redis returns the empty
    string, [get] returns it, but [if result:] is false for it and the
    local cache is left as it was, so the next [get] asks Redis again. *)
Theorem empty_response_not_cached (prompt : string) (self : BloomCache.t) (ttl : Z) :
  let key := Hashlib.md5_hexdigest prompt in
  Dict.contains (local_cache self) key = false ->
  fst (might_exist key self) = Return true ->
  Redis.fault (redis self) = None ->
  Redis.db (redis self) !! ("cache:" +:+ key) = Some (EmptyString, ttl) ->
  fst (get prompt self) = Return (Some EmptyString)
  /\ local_cache (snd (get prompt self)) = local_cache self
  /\ Redis.log (redis (snd (get prompt (snd (get prompt self)))))
     = [Redis.GET ("cache:" +:+ key); Redis.GET ("cache:" +:+ key)]
       ++ Redis.log (redis self).
Proof.
  intros key Hc Hm Hf Hdb. apply contains_false in Hc.
  assert (H1 : get prompt self
               = (Return (Some EmptyString),
                  with_redis (Redis.logged (Redis.GET ("cache:" +:+ key)) (redis self)) self)).
  { rewrite get_unfold. fold key. now rewrite Hc, Hm, Hf, Hdb. }
  rewrite H1. cbn [fst snd]. split; [reflexivity|]. split; [reflexivity|].
  rewrite get_unfold. fold key.
  rewrite might_exist_with_redis, Hm.
  cbn [local_cache with_redis redis fst Redis.fault Redis.db Redis.logged].
  now rewrite Hc, Hf, Hdb.
Qed.

Lemma empty_response_not_cached_witness :
  let srv := Redis.mk {[ ("cache:" +:+ Hashlib.md5_hexdigest "A") := (EmptyString, 60) ]}
                      None [] in
  let self := Scenario.built srv in
  fst (get "A" self) = Return (Some EmptyString)
  /\ local_cache (snd (get "A" self)) = [].
Proof.
  pose proof (empty_response_not_cached "A"
    (Scenario.built
       (Redis.mk {[ ("cache:" +:+ Hashlib.md5_hexdigest "A") := (EmptyString, 60) ]}
                 None [])) 60) as H.
  cbv zeta in H. destruct H as (H1 & H2 & _); try (vm_compute; reflexivity).
  split; [exact H1 | exact H2].
Defined.

(** X12 (read-through): when [get] finds a non-empty value in Redis, with
    [max_local] positive, it returns the value and stores it in the local
    cache, so that the same [get] made again returns the value without a
    call to Redis and without changing anything. *)
Theorem read_through_then_local_hit
    (prompt : string) (self : BloomCache.t) (c : ascii) (s : string) (ttl : Z) :
  let key := Hashlib.md5_hexdigest prompt in
  Dict.contains (local_cache self) key = false ->
  fst (might_exist key self) = Return true ->
  Redis.fault (redis self) = None ->
  Redis.db (redis self) !! ("cache:" +:+ key) = Some (String c s, ttl) ->
  0 < max_local self ->
  fst (get prompt self) = Return (Some (String c s))
  /\ get prompt (snd (get prompt self))
     = (Return (Some (String c s)), snd (get prompt self)).
Proof.
  intros key Hc Hm Hf Hdb Hpos. apply contains_false in Hc.
  rewrite get_unfold. fold key. rewrite Hc, Hm, Hf, Hdb.
  cbn [fmap option_fmap option_map fst].
  destruct (_ >=? _) eqn:G.
  - apply Z.geb_le in G.
    destruct (min_nonempty (Dict.keys (local_cache self))) as [oldest Hmin].
    { unfold Dict.len, Dict.keys in *. destruct (local_cache self); simpl in *; [lia|discriminate]. }
    destruct (min_spec _ _ Hmin) as [Hin _].
    rewrite Hmin, (in_keys_contains _ _ Hin). cbn [fst snd].
    split; [reflexivity|]. apply get_local_hit. apply lookup_setitem_eq.
  - cbn [fst snd]. split; [reflexivity|]. apply get_local_hit. apply lookup_setitem_eq.
Qed.

Lemma read_through_then_local_hit_witness :
  let self := Scenario.built Scenario.shared_server in
  fst (get "fresh" self) = Return (Some "answer"%string)
  /\ fst (get "fresh" (snd (get "fresh" self))) = Return (Some "answer"%string)
  /\ Redis.log (redis (snd (get "fresh" (snd (get "fresh" self)))))
     = [Redis.GET ("cache:" +:+ Hashlib.md5_hexdigest "fresh")].
Proof.
  pose proof (read_through_then_local_hit "fresh"
                (Scenario.built Scenario.shared_server) "a" "nswer" 3600) as H.
  cbv zeta in H. destruct H as (H1 & H2); try (vm_compute; reflexivity).
  split; [exact H1|]. rewrite H2. split; [reflexivity|]. vm_compute. reflexivity.
Defined.

(** X13 ([get] only reads): whatever the object and the prompt, [get]
    leaves the filter (bit array, size, hash count), [max_local] and what
    Redis stores as they were, and makes at most one call to Redis, a [GET]
    on ['cache:' + md5(prompt)]. *)
Theorem get_only_reads (prompt : string) (self : BloomCache.t) :
  let after := snd (get prompt self) in
  let name := "cache:" +:+ Hashlib.md5_hexdigest prompt in
  bloom after = bloom self
  /\ size after = size self
  /\ hash_count after = hash_count self
  /\ max_local after = max_local self
  /\ Redis.db (redis after) = Redis.db (redis self)
  /\ (Redis.log (redis after) = Redis.log (redis self)
      \/ Redis.log (redis after) = Redis.GET name :: Redis.log (redis self)).
Proof.
  intros after name. subst after.
  destruct (get_keeps_filter prompt self) as (Hb & Hs & Hk).
  destruct (get_keeps_shape prompt self) as (_ & _ & Hml).
  split; [exact Hb|]. split; [exact Hs|]. split; [exact Hk|]. split; [exact Hml|].
  rewrite get_unfold. subst name.
  destruct (Dict.lookup _ _); [split; [reflexivity | left; reflexivity]|].
  destruct (fst (might_exist _ self)) as [[|]|err];
    try (split; [reflexivity | left; reflexivity]).
  destruct (Redis.fault _); [split; [reflexivity | right; reflexivity]|].
  destruct (fst <$> _ !! _) as [[|c s]|];
    try (split; [reflexivity | right; reflexivity]).
  destruct (_ >=? _); [|split; [reflexivity | right; reflexivity]].
  destruct (min _); [|split; [reflexivity | right; reflexivity]].
  destruct (Dict.contains _ _); (split; [reflexivity | right; reflexivity]).
Qed.

(** X14 (write-through): when [set prompt v ttl] returns, Redis holds
    [v] with time to live [ttl] under ['cache:' + md5(prompt)] and nothing
    else in it has changed, the one call made is that [SETEX], the filter
    answers [True] for the key, and no bit of the filter was cleared. *)
Theorem set_writes_through
    (prompt v : string) (ttl : Z) (self self' : BloomCache.t) :
  let key := Hashlib.md5_hexdigest prompt in
  let name := "cache:" +:+ key in
  set prompt v ttl self = (Return tt, self') ->
  Redis.db (redis self') = <[name := (v, ttl)]> (Redis.db (redis self))
  /\ Redis.fault (redis self') = None
  /\ Redis.log (redis self') = Redis.SETEX name ttl v :: Redis.log (redis self)
  /\ might_exist key self' = (Return true, self')
  /\ covers (bloom self) (bloom self').
Proof.
  intros key name. rewrite set_unfold. fold key name.
  destruct (add key self) as [[[]|e] s1] eqn:A; [|discriminate].
  destruct (add_spec _ _ _ _ A) as (Hframe & Hcov & Hx). specialize (Hx eq_refl).
  assert (Hsrv : redis s1 = redis self) by (rewrite Hframe; reflexivity).
  unfold Redis.setex. rewrite Hsrv.
  destruct (Redis.fault (redis self)) eqn:Hf; [discriminate|].
  destruct (ttl <=? 0); [discriminate|].
  intros H; inversion H; subst; clear H.
  cbn [redis with_local_cache with_redis Redis.db Redis.fault Redis.log Redis.logged bloom].
  split; [reflexivity|]. split; [exact Hf|]. split; [reflexivity|].
  split; [|exact Hcov].
  now rewrite might_exist_local_cache, might_exist_with_redis, Hx.
Qed.

Lemma set_writes_through_witness :
  let self := Scenario.built Scenario.empty_server in
  let self' := snd (set "A" "respA" 3600 self) in
  let name := "cache:" +:+ Hashlib.md5_hexdigest "A" in
  fst (set "A" "respA" 3600 self) = Return tt
  /\ Redis.db (redis self') = <[name := ("respA"%string, 3600)]> (Redis.db (redis self))
  /\ Redis.log (redis self') = [Redis.SETEX name 3600 "respA"].
Proof.
  split; [vm_compute; reflexivity|].
  pose proof (set_writes_through "A" "respA" 3600
                (Scenario.built Scenario.empty_server)
                (snd (set "A" "respA" 3600 (Scenario.built Scenario.empty_server)))) as H.
  cbv zeta in H. destruct H as (H1 & _ & H3 & _); [vm_compute; reflexivity|].
  split; [exact H1 | exact H3].
Defined.

(** X15 (round trip between two objects): a value that [set] has stored
    from one object is returned by [get] on any other object connected to
    the same server, provided that object's local cache does not hold the
    key, its filter lets the key through and its [max_local] is positive. *)
Theorem round_trip_between_instances
    (prompt v : string) (ttl : Z) (a a' b : BloomCache.t) :
  let key := Hashlib.md5_hexdigest prompt in
  set prompt v ttl a = (Return tt, a') ->
  Dict.contains (local_cache b) key = false ->
  fst (might_exist key b) = Return true ->
  0 < max_local b ->
  fst (get prompt (with_redis (redis a') b)) = Return (Some v).
Proof.
  intros key Hset Hc Hm Hpos. apply contains_false in Hc.
  destruct (set_returns_server _ _ _ _ _ Hset) as [Hf Hdb]. fold key in Hdb.
  rewrite get_unfold. fold key. rewrite might_exist_with_redis, Hm.
  cbn [local_cache max_local with_redis redis fst].
  rewrite Hc, Hf, Hdb. cbn [fmap option_fmap option_map fst].
  destruct v as [|c s]; [reflexivity|].
  destruct (_ >=? _) eqn:G; [|reflexivity].
  apply Z.geb_le in G.
  destruct (min_nonempty (Dict.keys (local_cache b))) as [oldest Hmin].
  { unfold Dict.len, Dict.keys in *. destruct (local_cache b); simpl in *; [lia|discriminate]. }
  destruct (min_spec _ _ Hmin) as [Hin _].
  now rewrite Hmin, (in_keys_contains _ _ Hin).
Qed.

Lemma round_trip_between_instances_witness :
  let a := Scenario.built Scenario.empty_server in
  let a' := snd (set "A" "respA" 3600 a) in
  let b := Scenario.built Scenario.dead_server in
  fst (set "A" "respA" 3600 a) = Return tt
  /\ local_cache b = []
  /\ fst (get "A" (with_redis (redis a') b)) = Return (Some "respA"%string).
Proof.
  split; [vm_compute; reflexivity|]. split; [reflexivity|].
  apply (round_trip_between_instances "A" "respA" 3600
           (Scenario.built Scenario.empty_server)
           (snd (set "A" "respA" 3600 (Scenario.built Scenario.empty_server)))
           (Scenario.built Scenario.dead_server));
    try (vm_compute; reflexivity).
Defined.



End Extras.
